(** * The adapter-augmented Transformer sentence-encoder layer

    A shallow embedding of
    [fairseq/modules/transformer_sentence_encoder_layer.py]: the [Adapter]
    module and [TransformerSentenceEncoderLayer] with its constructor and
    its forward pass.

    The numeric kernels the file imports (torch tensors, [nn.Linear],
    [F.dropout], [LayerNorm], [MultiheadAttention],
    [utils.get_activation_fn]) are not part of the file.  They are taken
    as an interface, the class [Torch] below; what the layer needs to know
    about them is stated in separate contract records, and every theorem
    names the contracts it relies on.  Python exceptions are results of
    type [result]; the random generator that dropout consumes and the
    order in which the layer invokes its collaborators are threaded
    through the forward pass as explicit state.

    The constructor is modelled with all its arguments given (the
    keyword defaults of the Python signature are not part of the model),
    and [assert] statements are executed (the interpreter does not run
    with [-O]). *)

From Stdlib Require Import ZArith List String Bool Lia.
Import ListNotations.
Open Scope Z_scope.

(** ** Results and the state-and-exception monad *)

Inductive result (E A : Type) : Type :=
| Ok (a : A)
| Err (e : E).
Arguments Ok {E A} a.
Arguments Err {E A} e.

Definition bindR {E A B} (r : result E A) (k : A -> result E B) : result E B :=
  match r with
  | Ok a => k a
  | Err e => Err e
  end.

Notation "'let?' x ':=' r 'in' k" := (bindR r (fun x => k))
  (at level 10, x name, r at level 100, k at level 200).

(** A computation over a state [S] that may raise an [E].  The state
    reached when the exception is raised is kept: side effects performed
    before a Python exception are not rolled back. *)
Definition SE (S E A : Type) : Type := S -> S * result E A.

Definition ret {S E A} (a : A) : SE S E A := fun s => (s, Ok a).

Definition raise {S E A} (e : E) : SE S E A := fun s => (s, Err e).

Definition bind {S E A B} (m : SE S E A) (k : A -> SE S E B) : SE S E B :=
  fun s =>
    match m s with
    | (s1, Ok a) => k a s1
    | (s1, Err e) => (s1, Err e)
    end.

Declare Scope se_scope.
Delimit Scope se_scope with se.
Notation "x <- m ;; k" := (bind m (fun x => k))
  (at level 100, m at next level, right associativity) : se_scope.
Notation "' p <- m ;; k" := (bind m (fun x => match x with p => k end))
  (at level 100, p pattern, m at next level, right associativity) : se_scope.
Notation "m ;; k" := (bind m (fun _ => k))
  (at level 100, right associativity) : se_scope.

(** ** The collaborators

    Sizes are lists of Python integers.  [Float] is the type of the
    dropout probabilities, [Generator] the state of the random number
    generator, [Exn] the exceptions the collaborators raise. *)

(** The trailing dimension of a size. *)
Fixpoint trailing (sz : list Z) : option Z :=
  match sz with
  | [] => None
  | [d] => Some d
  | _ :: rest => trailing rest
  end.

Class Torch : Type := {
  Tensor : Type;
  Float : Type;
  Generator : Type;
  Exn : Type;

  (* torch.Tensor *)
  size : Tensor -> list Z;
  is_zero : Tensor -> bool;            (* every entry is zero *)
  tensor_add : Tensor -> Tensor -> result Exn Tensor;

  (* nn.Linear *)
  Linear : Type;
  in_features : Linear -> Z;
  out_features : Linear -> Z;
  Linear_init : Z -> Z -> SE Generator Exn Linear;
  Linear_forward : Linear -> Tensor -> result Exn Tensor;

  (* fairseq.modules.LayerNorm *)
  LayerNorm : Type;
  normalized_shape : LayerNorm -> Z;
  LayerNorm_init : Z -> bool -> SE Generator Exn LayerNorm;
  LayerNorm_forward : LayerNorm -> Tensor -> result Exn Tensor;

  (* fairseq.modules.MultiheadAttention; the arguments of the forward
     call are query, key, value, key_padding_mask, need_weights and
     attn_mask, in this order *)
  MultiheadAttention : Type;
  embed_dim : MultiheadAttention -> Z;
  MultiheadAttention_training : MultiheadAttention -> bool;
  MultiheadAttention_init :
    Z -> Z -> Float -> bool -> bool -> bool -> SE Generator Exn MultiheadAttention;
  MultiheadAttention_forward :
    MultiheadAttention -> Tensor -> Tensor -> Tensor -> option Tensor -> bool ->
    option Tensor -> SE Generator Exn (Tensor * option Tensor);
  (* [masks_ok L B key_padding_mask attn_mask]: the masks fit a query of
     [L] positions and batch size [B] *)
  masks_ok : Z -> Z -> option Tensor -> option Tensor -> bool;

  (* utils.get_activation_fn *)
  get_activation_fn : string -> result Exn (Tensor -> Tensor);

  (* F.dropout(x, p, training); [prob_ok p]: [p] is a probability *)
  prob_ok : Float -> bool;
  F_dropout : Tensor -> Float -> bool -> SE Generator Exn Tensor
}.

(** ** Adapter *)

Module Adapter.
Section WithTorch.
Context {T : Torch}.

Record t : Type := {
  fc1 : Linear;
  fc2 : Linear;
  activation_fn : Tensor -> Tensor
}.

Definition __init__ (embedding_dim adapter_dim : Z) (activation_fn : string)
  : SE Generator Exn t :=
  (fc1 <- Linear_init embedding_dim adapter_dim ;;
   fc2 <- Linear_init adapter_dim embedding_dim ;;
   match get_activation_fn activation_fn with
   | Ok f => ret {| fc1 := fc1; fc2 := fc2; activation_fn := f |}
   | Err e => raise e
   end)%se.

Definition forward (self : t) (x : Tensor) : result Exn Tensor :=
  let? h := Linear_forward (fc1 self) x in
  let? u := Linear_forward (fc2 self) (activation_fn self h) in
  tensor_add u x.

(** The dimensions of an adapter built for embedding dimension [d]. *)
Definition wf (d : Z) (self : t) : Prop :=
  in_features (fc1 self) = d /\
  out_features (fc1 self) = in_features (fc2 self) /\
  out_features (fc2 self) = d /\
  forall x, size (activation_fn self x) = size x.

End WithTorch.
End Adapter.

(** ** TransformerSentenceEncoderLayer *)

(** The two sub-blocks of the layer. *)
Inductive SubBlock : Type := SelfAttn | Ffn.

(** The calls [forward] makes, one constructor per call site. *)
Inductive Event : Type :=
| Ev_self_attn                      (* self.self_attn(...) *)
| Ev_adapter (b : SubBlock)         (* self.self_attn_adapter(x), self.ff_adapter(x) *)
| Ev_dropout (b : SubBlock)         (* F.dropout(x, p=self.dropout, ...) *)
| Ev_add (b : SubBlock)             (* residual + x *)
| Ev_layer_norm (b : SubBlock)      (* self.self_attn_layer_norm(x), self.final_layer_norm(x) *)
| Ev_fc1                            (* self.fc1(x) *)
| Ev_activation_fn                  (* self.activation_fn(...) *)
| Ev_activation_dropout             (* F.dropout(x, p=self.activation_dropout, ...) *)
| Ev_fc2.                           (* self.fc2(x) *)

Definition SubBlock_eqb (a b : SubBlock) : bool :=
  match a, b with
  | SelfAttn, SelfAttn | Ffn, Ffn => true
  | _, _ => false
  end.

Definition Event_eqb (a b : Event) : bool :=
  match a, b with
  | Ev_self_attn, Ev_self_attn
  | Ev_fc1, Ev_fc1
  | Ev_activation_fn, Ev_activation_fn
  | Ev_activation_dropout, Ev_activation_dropout
  | Ev_fc2, Ev_fc2 => true
  | Ev_adapter x, Ev_adapter y
  | Ev_dropout x, Ev_dropout y
  | Ev_add x, Ev_add y
  | Ev_layer_norm x, Ev_layer_norm y => SubBlock_eqb x y
  | _, _ => false
  end.

(** Position of the first occurrence of an event in a trace. *)
Fixpoint index_of (e : Event) (tr : list Event) : option nat :=
  match tr with
  | [] => None
  | e' :: tr' =>
      if Event_eqb e e' then Some O
      else match index_of e tr' with
           | Some i => Some (S i)
           | None => None
           end
  end.

(** [precedes a b tr]: both calls occur in [tr], and [a] is made first. *)
Definition precedes (a b : Event) (tr : list Event) : bool :=
  match index_of a tr, index_of b tr with
  | Some i, Some j => Nat.ltb i j
  | _, _ => false
  end.

Module TransformerSentenceEncoderLayer.
Section WithTorch.
Context {T : Torch}.

(** The only exception [forward] raises itself is the failed
    [assert] of its first line; whatever a collaborator raises
    propagates unchanged as [Raised]. *)
Inductive Error : Type :=
| AssertionError
| Raised (e : Exn).

(** What a forward call can change or leave behind: the random
    generator, and the calls made so far, oldest first. *)
Record State : Type := {
  generator : Generator;
  trace : list Event
}.

Record t : Type := {
  training : bool;                      (* nn.Module.training *)
  embedding_dim : Z;
  dropout : Float;
  activation_dropout : Float;
  activation_fn : Tensor -> Tensor;
  self_attn : MultiheadAttention;
  self_attn_layer_norm : LayerNorm;
  fc1 : Linear;
  fc2 : Linear;
  final_layer_norm : LayerNorm;
  self_attn_adapter : option Adapter.t; (* None: the attribute does not exist *)
  ff_adapter : option Adapter.t
}.

(** Truth value of an [int]-or-[None] argument in an [if]. *)
Definition truthy (d : option Z) : bool :=
  match d with
  | None => false
  | Some n => negb (n =? 0)
  end.

(** [if dim: self.attr = Adapter(self.embedding_dim, dim, activation_fn)] *)
Definition make_adapter (embedding_dim : Z) (dim : option Z) (activation_fn : string)
  : SE Generator Exn (option Adapter.t) :=
  if truthy dim then
    match dim with
    | Some n => (a <- Adapter.__init__ embedding_dim n activation_fn ;; ret (Some a))%se
    | None => ret None
    end
  else ret None.

Definition __init__
    (embedding_dim ffn_embedding_dim num_attention_heads : Z)
    (dropout attention_dropout activation_dropout : Float)
    (activation_fn : string)
    (add_bias_kv add_zero_attn export : bool)
    (self_attn_adapter_dim ffn_adapter_dim : option Z)
  : SE Generator Exn t :=
  (act <- (fun g => (g, get_activation_fn activation_fn)) ;;
   self_attn <- MultiheadAttention_init embedding_dim num_attention_heads
                  attention_dropout add_bias_kv add_zero_attn true ;;
   self_attn_layer_norm <- LayerNorm_init embedding_dim export ;;
   fc1 <- Linear_init embedding_dim ffn_embedding_dim ;;
   fc2 <- Linear_init ffn_embedding_dim embedding_dim ;;
   final_layer_norm <- LayerNorm_init embedding_dim export ;;
   self_attn_adapter <- make_adapter embedding_dim self_attn_adapter_dim activation_fn ;;
   ff_adapter <- make_adapter embedding_dim ffn_adapter_dim activation_fn ;;
   ret {| training := true;
          embedding_dim := embedding_dim;
          dropout := dropout;
          activation_dropout := activation_dropout;
          activation_fn := act;
          self_attn := self_attn;
          self_attn_layer_norm := self_attn_layer_norm;
          fc1 := fc1;
          fc2 := fc2;
          final_layer_norm := final_layer_norm;
          self_attn_adapter := self_attn_adapter;
          ff_adapter := ff_adapter |})%se.

(** *** Calling a collaborator from [forward] *)

Definition lift_exn {A} (r : result Exn A) : result Error A :=
  match r with
  | Ok a => Ok a
  | Err e => Err (Raised e)
  end.

Definition record_call (e : Event) (s : State) : State :=
  {| generator := generator s; trace := trace s ++ [e] |}.

(** A call that may draw from the random generator. *)
Definition call {A} (e : Event) (f : SE Generator Exn A) : SE State Error A :=
  fun s =>
    let (g, r) := f (generator s) in
    ({| generator := g; trace := trace s ++ [e] |}, lift_exn r).

(** A call that does not touch the generator. *)
Definition call_pure {A} (e : Event) (r : result Exn A) : SE State Error A :=
  fun s => (record_call e s, lift_exn r).

Definition assert (b : bool) : SE State Error unit :=
  if b then ret tt else raise AssertionError.

Definition is_None {A} (o : option A) : bool :=
  match o with
  | None => true
  | Some _ => false
  end.

Definition forward (self : t) (x : Tensor)
    (self_attn_mask self_attn_padding_mask extra_attention_mask : option Tensor)
  : SE State Error (Tensor * option Tensor) :=
  (assert (is_None self_attn_mask) ;;
   let residual := x in
   '(x, attn) <- call Ev_self_attn
                   (MultiheadAttention_forward (self_attn self) x x x
                      self_attn_padding_mask false extra_attention_mask) ;;
   x <- match self_attn_adapter self with
        | Some adapter => call_pure (Ev_adapter SelfAttn) (Adapter.forward adapter x)
        | None => ret x
        end ;;
   x <- call (Ev_dropout SelfAttn) (F_dropout x (dropout self) (training self)) ;;
   x <- call_pure (Ev_add SelfAttn) (tensor_add residual x) ;;
   x <- call_pure (Ev_layer_norm SelfAttn)
          (LayerNorm_forward (self_attn_layer_norm self) x) ;;
   let residual := x in
   x <- call_pure Ev_fc1 (Linear_forward (fc1 self) x) ;;
   x <- call_pure Ev_activation_fn (Ok (activation_fn self x)) ;;
   x <- call Ev_activation_dropout
          (F_dropout x (activation_dropout self) (training self)) ;;
   x <- call_pure Ev_fc2 (Linear_forward (fc2 self) x) ;;
   x <- call (Ev_dropout Ffn) (F_dropout x (dropout self) (training self)) ;;
   x <- match ff_adapter self with
        | Some adapter => call_pure (Ev_adapter Ffn) (Adapter.forward adapter x)
        | None => ret x
        end ;;
   x <- call_pure (Ev_add Ffn) (tensor_add residual x) ;;
   x <- call_pure (Ev_layer_norm Ffn) (LayerNorm_forward (final_layer_norm self) x) ;;
   ret (x, attn))%se.

(** *** The forward pass, step by step as the specification lists it

    [forward_steps step4 step10] performs steps 1 to 13 of the forward
    contract; the two flags say whether step 4 (self-attention-side
    adapter) and step 10 (feed-forward-side adapter) are performed or
    skipped. *)

Definition adapter_step (b : SubBlock) (performed : bool)
    (adapter : option Adapter.t) (x : Tensor) : SE State Error Tensor :=
  if performed then
    match adapter with
    | Some a => call_pure (Ev_adapter b) (Adapter.forward a x)
    | None => ret x
    end
  else ret x.

Definition forward_steps (step4 step10 : bool) (self : t) (x : Tensor)
    (general_mask key_padding_mask extra_mask : option Tensor)
  : SE State Error (Tensor * option Tensor) :=
  ((* 1 *) assert (is_None general_mask) ;;
   (* 2 *) let anchor := x in
   (* 3 *) r <- call Ev_self_attn
                  (MultiheadAttention_forward (self_attn self) x x x
                     key_padding_mask false extra_mask) ;;
   (* 4 *) a <- adapter_step SelfAttn step4 (self_attn_adapter self) (fst r) ;;
   (* 5 *) d <- call (Ev_dropout SelfAttn) (F_dropout a (dropout self) (training self)) ;;
   (* 6 *) y <- call_pure (Ev_add SelfAttn) (tensor_add anchor d) ;;
   (* 7 *) n <- call_pure (Ev_layer_norm SelfAttn)
                  (LayerNorm_forward (self_attn_layer_norm self) y) ;;
   (* 8 *) let anchor := n in
   (* 9 *) h <- call_pure Ev_fc1 (Linear_forward (fc1 self) n) ;;
           h <- call_pure Ev_activation_fn (Ok (activation_fn self h)) ;;
           h <- call Ev_activation_dropout
                  (F_dropout h (activation_dropout self) (training self)) ;;
           h <- call_pure Ev_fc2 (Linear_forward (fc2 self) h) ;;
           h <- call (Ev_dropout Ffn) (F_dropout h (dropout self) (training self)) ;;
   (* 10 *) a <- adapter_step Ffn step10 (ff_adapter self) h ;;
   (* 11 *) y <- call_pure (Ev_add Ffn) (tensor_add anchor a) ;;
   (* 12 *) n <- call_pure (Ev_layer_norm Ffn) (LayerNorm_forward (final_layer_norm self) y) ;;
   (* 13 *) ret (n, snd r))%se.

(** The optional adapter of a sub-block as a function on tensors. *)
Definition apply_adapter (adapter : option Adapter.t) (x : Tensor) : result Exn Tensor :=
  match adapter with
  | Some a => Adapter.forward a x
  | None => Ok x
  end.

Definition adapter_events (b : SubBlock) (adapter : option Adapter.t) : list Event :=
  match adapter with
  | Some _ => [Ev_adapter b]
  | None => []
  end.

(** The calls of a forward pass that runs to its end. *)
Definition forward_events (self : t) : list Event :=
  [Ev_self_attn] ++ adapter_events SelfAttn (self_attn_adapter self) ++
  [Ev_dropout SelfAttn; Ev_add SelfAttn; Ev_layer_norm SelfAttn;
   Ev_fc1; Ev_activation_fn; Ev_activation_dropout; Ev_fc2; Ev_dropout Ffn] ++
  adapter_events Ffn (ff_adapter self) ++
  [Ev_add Ffn; Ev_layer_norm Ffn].

(** The structural invariant the constructor establishes. *)
Record wf (self : t) : Prop := {
  wf_self_attn : embed_dim (self_attn self) = embedding_dim self;
  wf_self_attn_layer_norm :
    normalized_shape (self_attn_layer_norm self) = embedding_dim self;
  wf_fc1_in : in_features (fc1 self) = embedding_dim self;
  wf_fc1_fc2 : out_features (fc1 self) = in_features (fc2 self);
  wf_fc2_out : out_features (fc2 self) = embedding_dim self;
  wf_final_layer_norm :
    normalized_shape (final_layer_norm self) = embedding_dim self;
  wf_activation_fn : forall x, size (activation_fn self x) = size x;
  wf_self_attn_adapter :
    forall a, self_attn_adapter self = Some a -> Adapter.wf (embedding_dim self) a;
  wf_ff_adapter :
    forall a, ff_adapter self = Some a -> Adapter.wf (embedding_dim self) a
}.

(** A computation that does not fail the layer's own assertion and only
    adds calls to the trace. *)
Definition proceeds {A} (m : SE State Error A) : Prop :=
  forall s, snd (m s) <> Err AssertionError /\
            exists evs, trace (fst (m s)) = trace s ++ evs.

(** A computation whose outcome does not depend on the state it starts
    from and which leaves the generator as it found it. *)
Definition generator_independent {A} (m : SE State Error A) : Prop :=
  exists r, forall s, snd (m s) = r /\ generator (fst (m s)) = generator s.

(** Inference mode: [eval()] has cleared the training flag of the layer
    and of the attention module it owns (the other sub-modules have no
    mode-dependent behaviour). *)
Definition inference_mode (self : t) : Prop :=
  training self = false /\ MultiheadAttention_training (self_attn self) = false.

End WithTorch.
End TransformerSentenceEncoderLayer.

(** ** Contracts of the collaborators *)

Section Contracts.
Context {T : Torch}.

(** Sizes: constructors build modules of the requested dimensions, and
    every forward kernel accepts inputs of the matching size and returns
    the size documented for it. *)
Record ShapeSpec : Prop := {
  Linear_init_features :
    forall i o g g' l, Linear_init i o g = (g', Ok l) ->
      in_features l = i /\ out_features l = o;
  LayerNorm_init_shape :
    forall d e g g' n, LayerNorm_init d e g = (g', Ok n) -> normalized_shape n = d;
  MultiheadAttention_init_dim :
    forall d h p bkv za sa g g' m,
      MultiheadAttention_init d h p bkv za sa g = (g', Ok m) -> embed_dim m = d;
  activation_fn_size :
    forall name f x, get_activation_fn name = Ok f -> size (f x) = size x;
  Linear_forward_size :
    forall l x, trailing (size x) = Some (in_features l) ->
      exists y, Linear_forward l x = Ok y /\
                size y = removelast (size x) ++ [out_features l];
  LayerNorm_forward_size :
    forall n x, trailing (size x) = Some (normalized_shape n) ->
      exists y, LayerNorm_forward n x = Ok y /\ size y = size x;
  tensor_add_size :
    forall a b, size a = size b ->
      exists y, tensor_add a b = Ok y /\ size y = size a;
  F_dropout_size :
    forall x p tr g, prob_ok p = true ->
      exists g' y, F_dropout x p tr g = (g', Ok y) /\ size y = size x;
  MultiheadAttention_forward_size :
    forall m x kpm nw am g L B,
      0 < L -> 0 < B -> size x = [L; B; embed_dim m] ->
      masks_ok L B kpm am = true ->
      exists g' y w,
        MultiheadAttention_forward m x x x kpm nw am g = (g', Ok (y, w)) /\
        size y = size x
}.

(** Inference mode: dropout with [training=False] and an attention
    module in inference mode neither read nor advance the generator. *)
Record EvalSpec : Prop := {
  F_dropout_eval :
    forall x p, exists r, forall g, F_dropout x p false g = (g, r);
  MultiheadAttention_eval :
    forall m, MultiheadAttention_training m = false ->
      forall q k v kpm nw am,
        exists r, forall g, MultiheadAttention_forward m q k v kpm nw am g = (g, r)
}.

(** Adding an all-zero tensor of the same size changes nothing. *)
Record ZeroSpec : Prop := {
  tensor_add_zero_l :
    forall z x, is_zero z = true -> size z = size x -> tensor_add z x = Ok x
}.

End Contracts.

(** ** An executable instance of the interface

    Tensors all of whose entries are equal: a size and the common entry.
    The kernels act on the common entry.  The instance runs the layer on
    concrete inputs and shows that the contracts above can be met. *)

Module Toy.

Record tensor : Type := { t_size : list Z; t_val : Z }.
Record linear : Type := { l_in : Z; l_out : Z; l_weight : Z; l_bias : Z }.
Record layer_norm : Type := { n_shape : Z; n_weight : Z; n_bias : Z }.
Record attention : Type :=
  { m_dim : Z; m_heads : Z; m_dropout : Z; m_training : bool }.

Fixpoint size_eqb (a b : list Z) : bool :=
  match a, b with
  | [], [] => true
  | x :: a', y :: b' => (x =? y) && size_eqb a' b'
  | _, _ => false
  end.

(** Probabilities are percentages. *)
Definition percent_ok (p : Z) : bool := (0 <=? p) && (p <=? 100).

Definition add (a b : tensor) : result string tensor :=
  if size_eqb (t_size a) (t_size b)
  then Ok {| t_size := t_size a; t_val := t_val a + t_val b |}
  else Err "size mismatch"%string.

Definition linear_init (i o : Z) : SE Z string linear :=
  fun g =>
    if (0 <? i) && (0 <? o)
    then (g + 1, Ok {| l_in := i; l_out := o; l_weight := g mod 3 - 1; l_bias := 1 |})
    else (g, Err "invalid feature count"%string).

Definition linear_forward (l : linear) (x : tensor) : result string tensor :=
  match trailing (t_size x) with
  | Some d =>
      if d =? l_in l
      then Ok {| t_size := removelast (t_size x) ++ [l_out l];
                 t_val := l_weight l * l_in l * t_val x + l_bias l |}
      else Err "size mismatch"%string
  | None => Err "size mismatch"%string
  end.

Definition layer_norm_init (d : Z) (export : bool) : SE Z string layer_norm :=
  fun g => (g, Ok {| n_shape := d; n_weight := 1; n_bias := 0 |}).

Definition layer_norm_forward (n : layer_norm) (x : tensor) : result string tensor :=
  match trailing (t_size x) with
  | Some d =>
      if d =? n_shape n
      then Ok {| t_size := t_size x; t_val := n_weight n * t_val x + n_bias n |}
      else Err "size mismatch"%string
  | None => Err "size mismatch"%string
  end.

Definition attention_init (d h p : Z) (add_bias_kv add_zero_attn self_attention : bool)
  : SE Z string attention :=
  fun g =>
    if (0 <? h) && (d mod h =? 0) && percent_ok p
    then (g + 1, Ok {| m_dim := d; m_heads := h; m_dropout := p; m_training := true |})
    else (g, Err "embed_dim must be divisible by num_heads"%string).

Definition mask_ok (sz : list Z) (mask : option tensor) : bool :=
  match mask with
  | None => true
  | Some m => size_eqb (t_size m) sz
  end.

Definition attention_masks_ok (L B : Z) (key_padding_mask attn_mask : option tensor)
  : bool :=
  mask_ok [B; L] key_padding_mask && mask_ok [L; L] attn_mask.

Definition attention_forward (m : attention) (query key value : tensor)
    (key_padding_mask : option tensor) (need_weights : bool)
    (attn_mask : option tensor) : SE Z string (tensor * option tensor) :=
  fun g =>
    match t_size query with
    | [L; B; E] =>
        if (E =? m_dim m) && size_eqb (t_size key) (t_size query)
           && size_eqb (t_size value) (t_size query)
           && attention_masks_ok L B key_padding_mask attn_mask
        then
          let weights :=
            if need_weights then Some {| t_size := [B; L; L]; t_val := 1 |} else None in
          if m_training m && (0 <? m_dropout m)
          then (g + 1,
                Ok ({| t_size := t_size query; t_val := 2 * t_val value + 1 + g mod 2 |},
                    weights))
          else (g, Ok ({| t_size := t_size query; t_val := 2 * t_val value + 1 |},
                       weights))
        else (g, Err "size mismatch"%string)
    | _ => (g, Err "size mismatch"%string)
    end.

Definition relu (x : tensor) : tensor :=
  {| t_size := t_size x; t_val := Z.max 0 (t_val x) |}.

Definition activation_of (name : string) : result string (tensor -> tensor) :=
  if String.eqb name "relu" then Ok relu
  else if String.eqb name "linear" then Ok (fun x => x)
  else Err "--activation-fn not supported"%string.

Definition dropout (x : tensor) (p : Z) (training : bool) : SE Z string tensor :=
  fun g =>
    if percent_ok p then
      if training
      then (g + 1,
            Ok (if g mod 100 <? p then {| t_size := t_size x; t_val := 0 |} else x))
      else (g, Ok x)
    else (g, Err "dropout probability has to be between 0 and 1"%string).

#[export] Instance torch : Torch := {|
  Tensor := tensor;
  Float := Z;
  Generator := Z;
  Exn := string;
  size := t_size;
  is_zero := fun x => t_val x =? 0;
  tensor_add := add;
  Linear := linear;
  in_features := l_in;
  out_features := l_out;
  Linear_init := linear_init;
  Linear_forward := linear_forward;
  LayerNorm := layer_norm;
  normalized_shape := n_shape;
  LayerNorm_init := layer_norm_init;
  LayerNorm_forward := layer_norm_forward;
  MultiheadAttention := attention;
  embed_dim := m_dim;
  MultiheadAttention_training := m_training;
  MultiheadAttention_init := attention_init;
  MultiheadAttention_forward := attention_forward;
  masks_ok := attention_masks_ok;
  get_activation_fn := activation_of;
  prob_ok := percent_ok;
  F_dropout := dropout
|}.

Import TransformerSentenceEncoderLayer.

(** A layer of embedding dimension 4 with both adapters, as the
    constructor builds it from generator state 0. *)
Definition both_adapters (training : bool) : t :=
  {| training := training;
     embedding_dim := 4;
     dropout := 50;
     activation_dropout := 0;
     activation_fn := relu;
     self_attn := {| m_dim := 4; m_heads := 2; m_dropout := 0; m_training := training |};
     self_attn_layer_norm := {| n_shape := 4; n_weight := 1; n_bias := 0 |};
     fc1 := {| l_in := 4; l_out := 8; l_weight := 0; l_bias := 1 |};
     fc2 := {| l_in := 8; l_out := 4; l_weight := 1; l_bias := 1 |};
     final_layer_norm := {| n_shape := 4; n_weight := 1; n_bias := 0 |};
     self_attn_adapter :=
       Some {| Adapter.fc1 := {| l_in := 4; l_out := 2; l_weight := -1; l_bias := 1 |};
               Adapter.fc2 := {| l_in := 2; l_out := 4; l_weight := 0; l_bias := 1 |};
               Adapter.activation_fn := relu |};
     ff_adapter :=
       Some {| Adapter.fc1 := {| l_in := 4; l_out := 2; l_weight := 1; l_bias := 1 |};
               Adapter.fc2 := {| l_in := 2; l_out := 4; l_weight := -1; l_bias := 1 |};
               Adapter.activation_fn := relu |} |}.

(** The same layer built with both adapter dimensions absent. *)
Definition no_adapters (training : bool) : t :=
  {| training := training;
     embedding_dim := 4;
     dropout := 50;
     activation_dropout := 0;
     activation_fn := relu;
     self_attn := {| m_dim := 4; m_heads := 2; m_dropout := 0; m_training := training |};
     self_attn_layer_norm := {| n_shape := 4; n_weight := 1; n_bias := 0 |};
     fc1 := {| l_in := 4; l_out := 8; l_weight := 0; l_bias := 1 |};
     fc2 := {| l_in := 8; l_out := 4; l_weight := 1; l_bias := 1 |};
     final_layer_norm := {| n_shape := 4; n_weight := 1; n_bias := 0 |};
     self_attn_adapter := None;
     ff_adapter := None |}.

(** A 2-position, batch-1, dimension-4 input. *)
Definition x0 : tensor := {| t_size := [2; 1; 4]; t_val := 3 |}.

Definition s0 : State := {| generator := 0; trace := [] |}.

(** The adapter the constructor builds from generator state 0. *)
Definition built_adapter : Adapter.t :=
  {| Adapter.fc1 := {| l_in := 4; l_out := 2; l_weight := -1; l_bias := 1 |};
     Adapter.fc2 := {| l_in := 2; l_out := 4; l_weight := 0; l_bias := 1 |};
     Adapter.activation_fn := relu |}.

(** An adapter whose up-projection has zero weight and zero bias. *)
Definition zero_adapter : Adapter.t :=
  {| Adapter.fc1 := {| l_in := 4; l_out := 2; l_weight := 1; l_bias := 1 |};
     Adapter.fc2 := {| l_in := 2; l_out := 4; l_weight := 0; l_bias := 0 |};
     Adapter.activation_fn := relu |}.

(** A layer both of whose adapters have a zero up-projection. *)
Definition zero_adapters (training : bool) : t :=
  {| training := training;
     embedding_dim := 4;
     dropout := 50;
     activation_dropout := 0;
     activation_fn := relu;
     self_attn := {| m_dim := 4; m_heads := 2; m_dropout := 0; m_training := training |};
     self_attn_layer_norm := {| n_shape := 4; n_weight := 1; n_bias := 0 |};
     fc1 := {| l_in := 4; l_out := 8; l_weight := 0; l_bias := 1 |};
     fc2 := {| l_in := 8; l_out := 4; l_weight := 1; l_bias := 1 |};
     final_layer_norm := {| n_shape := 4; n_weight := 1; n_bias := 0 |};
     self_attn_adapter := Some zero_adapter;
     ff_adapter := Some zero_adapter |}.


End Toy.

(** ** Statements about the order of calls *)

(** The placement the summary sentence of the specification gives to the
    adapters: in every sub-block whose adapter is called, the adapter
    call comes before the output dropout and before the residual add of
    that sub-block. *)
Definition adapter_before_dropout_and_add (tr : list Event) : Prop :=
  forall b, In (Ev_adapter b) tr ->
    precedes (Ev_adapter b) (Ev_dropout b) tr = true /\
    precedes (Ev_adapter b) (Ev_add b) tr = true.

Import TransformerSentenceEncoderLayer.

(** ** Statements about failures, construction and inference *)

Definition is_Ok {E A} (r : result E A) : bool :=
  match r with
  | Ok _ => true
  | Err _ => false
  end.

Section Statements.
Context {T : Torch}.

(** [logs m evs]: from every state, [m] records an initial part of [evs]
    and nothing else, and all of [evs] when it returns. *)
Definition logs {A} (m : SE State Error A) (evs : list Event) : Prop :=
  forall s, exists pre post,
    evs = pre ++ post /\
    trace (fst (m s)) = trace s ++ pre /\
    (is_Ok (snd (m s)) = true -> post = []).



(** The layer with the same parameters and no adapter attribute. *)
Definition without_adapters (self : t) : t :=
  {| training := training self;
     embedding_dim := embedding_dim self;
     dropout := dropout self;
     activation_dropout := activation_dropout self;
     activation_fn := activation_fn self;
     self_attn := self_attn self;
     self_attn_layer_norm := self_attn_layer_norm self;
     fc1 := fc1 self;
     fc2 := fc2 self;
     final_layer_norm := final_layer_norm self;
     self_attn_adapter := None;
     ff_adapter := None |}.

(** With [training=False], [F.dropout] returns its input and does not
    touch the generator. *)
Record DropoutSpec : Prop := {
  F_dropout_inference :
    forall x p g, prob_ok p = true -> F_dropout x p false g = (g, Ok x)
}.

End Statements.

(** * Properties *)

(** ** Sizes *)

Lemma trailing_app_last (l : list Z) (d : Z) : trailing (l ++ [d]) = Some d.
Proof.
  induction l as [|a l IH]; [reflexivity|].
  simpl. destruct (l ++ [d]) eqn:E; [destruct l; discriminate | exact IH].
Qed.

Lemma trailing_removelast (sz : list Z) (d : Z) :
  trailing sz = Some d -> removelast sz ++ [d] = sz.
Proof.
  induction sz as [|a sz IH]; [discriminate|].
  destruct sz as [|b sz].
  - simpl. intros [= ->]. reflexivity.
  - intros H. change (a :: (removelast (b :: sz) ++ [d]) = a :: b :: sz).
    f_equal. apply IH. exact H.
Qed.

Lemma trailing_three (a b c : Z) : trailing [a; b; c] = Some c.
Proof. reflexivity. Qed.

(** ** The monad *)

Section Monad.
Context {S E : Type}.

Lemma bind_Ok_inv {A B} (m : SE S E A) (k : A -> SE S E B) s s' b :
  bind m k s = (s', Ok b) ->
  exists a s1, m s = (s1, Ok a) /\ k a s1 = (s', Ok b).
Proof.
  unfold bind. destruct (m s) as [s1 [a|e]]; [|discriminate].
  intros H. exists a, s1. split; [reflexivity | exact H].
Qed.

Lemma bind_Ok {A B} (m : SE S E A) (k : A -> SE S E B) s s1 a :
  m s = (s1, Ok a) -> bind m k s = k a s1.
Proof. unfold bind. intros ->. reflexivity. Qed.

Lemma bind_Err {A B} (m : SE S E A) (k : A -> SE S E B) s s1 e :
  m s = (s1, Err e) -> bind m k s = (s1, Err e).
Proof. unfold bind. intros ->. reflexivity. Qed.

End Monad.

(** ** Adapter *)

Section AdapterFacts.
Context {T : Torch}.

Lemma Adapter_init_Ok_inv d n name g g' (a : Adapter.t) :
  Adapter.__init__ d n name g = (g', Ok a) ->
  exists g1 l1 l2 f,
    Linear_init d n g = (g1, Ok l1) /\
    Linear_init n d g1 = (g', Ok l2) /\
    get_activation_fn name = Ok f /\
    a = {| Adapter.fc1 := l1; Adapter.fc2 := l2; Adapter.activation_fn := f |}.
Proof.
  unfold Adapter.__init__. intros H.
  apply bind_Ok_inv in H. destruct H as (l1 & g1 & H1 & H).
  apply bind_Ok_inv in H. destruct H as (l2 & g2 & H2 & H).
  destruct (get_activation_fn name) as [f|e] eqn:Hf; [|discriminate].
  unfold ret in H. injection H as -> <-.
  exists g1, l1, l2, f. repeat split; assumption.
Qed.

(** The constructor builds an adapter of the requested dimensions. *)
Lemma Adapter_init_wf (HS : ShapeSpec) d n name g g' (a : Adapter.t) :
  Adapter.__init__ d n name g = (g', Ok a) -> Adapter.wf d a.
Proof.
  intros H. apply Adapter_init_Ok_inv in H.
  destruct H as (g1 & l1 & l2 & f & H1 & H2 & Hf & ->).
  apply (Linear_init_features HS) in H1, H2.
  destruct H1 as [I1 O1], H2 as [I2 O2].
  unfold Adapter.wf; simpl. repeat split; try congruence.
  intros x. exact (activation_fn_size HS name f x Hf).
Qed.

(** On an input whose trailing dimension is the embedding dimension
    both projections and the residual add succeed, and sizes are kept. *)
Lemma Adapter_forward_defined (HS : ShapeSpec) d (a : Adapter.t) x :
  Adapter.wf d a -> trailing (size x) = Some d ->
  exists h u y,
    Linear_forward (Adapter.fc1 a) x = Ok h /\
    Linear_forward (Adapter.fc2 a) (Adapter.activation_fn a h) = Ok u /\
    size u = size x /\
    tensor_add u x = Ok y /\
    size y = size x /\
    Adapter.forward a x = Ok y.
Proof.
  intros (Hin & Hmid & Hout & Hact) Hx.
  destruct (Linear_forward_size HS (Adapter.fc1 a) x) as (h & Hh & Sh);
    [congruence|].
  destruct (Linear_forward_size HS (Adapter.fc2 a) (Adapter.activation_fn a h))
    as (u & Hu & Su).
  { rewrite Hact, Sh, trailing_app_last. congruence. }
  assert (Su' : size u = size x).
  { rewrite Su, Hact, Sh, removelast_last, Hout. apply trailing_removelast, Hx. }
  destruct (tensor_add_size HS u x Su') as (y & Hy & Sy).
  exists h, u, y. repeat split; try assumption; try congruence.
  unfold Adapter.forward. rewrite Hh. simpl. rewrite Hu. simpl. exact Hy.
Qed.

(** C4. For an adapter built by the constructor for embedding dimension
    [d] and every input [x] whose trailing dimension is [d], the
    down-projection [fc1], the up-projection [fc2] and the residual add
    are all defined, and [Adapter.forward x] is
    [fc2 (activation_fn (fc1 x)) + x]. *)
Theorem Adapter_forward_formula (HS : ShapeSpec) d n name g g' (a : Adapter.t) x :
  Adapter.__init__ d n name g = (g', Ok a) ->
  trailing (size x) = Some d ->
  exists down up y,
    Linear_forward (Adapter.fc1 a) x = Ok down /\
    Linear_forward (Adapter.fc2 a) (Adapter.activation_fn a down) = Ok up /\
    tensor_add up x = Ok y /\
    Adapter.forward a x = Ok y.
Proof.
  intros Hinit Hx.
  destruct (Adapter_forward_defined HS d a x
              (Adapter_init_wf HS d n name g g' a Hinit) Hx)
    as (h & u & y & Hh & Hu & _ & Hy & _ & Hf).
  exists h, u, y. auto.
Qed.

(** C5. If whatever the up-projection [fc2] returns is exactly zero,
    the adapter is the identity on every input whose trailing dimension
    is the embedding dimension. *)
Theorem Adapter_identity_at_zero (HS : ShapeSpec) (HZ : ZeroSpec) d (a : Adapter.t) x :
  Adapter.wf d a ->
  trailing (size x) = Some d ->
  (forall h u, Linear_forward (Adapter.fc2 a) h = Ok u -> is_zero u = true) ->
  Adapter.forward a x = Ok x.
Proof.
  intros Hwf Hx Hzero.
  destruct (Adapter_forward_defined HS d a x Hwf Hx)
    as (h & u & y & Hh & Hu & Su & Hy & _ & Hf).
  rewrite Hf, <- Hy. apply (tensor_add_zero_l HZ); [|exact Su].
  exact (Hzero _ _ Hu).
Qed.

End AdapterFacts.

(** ** The forward pass *)

Section ForwardFacts.
Context {T : Torch}.

Lemma lift_exn_Ok_inv {A} (r : result Exn A) (a : A) :
  lift_exn r = Ok a -> r = Ok a.
Proof. destruct r; simpl; congruence. Qed.

Lemma call_Ok_inv {A} e (f : SE Generator Exn A) s s' (a : A) :
  call e f s = (s', Ok a) ->
  f (generator s) = (generator s', Ok a) /\ trace s' = trace s ++ [e].
Proof.
  unfold call. destruct (f (generator s)) as [g r]. intros [= <- Hr].
  apply lift_exn_Ok_inv in Hr. subst r. split; reflexivity.
Qed.

Lemma call_pure_Ok_inv {A} e (r : result Exn A) s s' (a : A) :
  call_pure e r s = (s', Ok a) ->
  r = Ok a /\ generator s' = generator s /\ trace s' = trace s ++ [e].
Proof.
  unfold call_pure. intros [= <- Hr].
  apply lift_exn_Ok_inv in Hr. repeat split; assumption.
Qed.

Lemma adapter_step_Ok_inv b (o : option Adapter.t) x s s' y :
  adapter_step b true o x s = (s', Ok y) ->
  apply_adapter o x = Ok y /\ generator s' = generator s /\
  trace s' = trace s ++ adapter_events b o.
Proof.
  unfold adapter_step, apply_adapter, adapter_events. destruct o as [a|].
  - apply call_pure_Ok_inv.
  - unfold ret. intros [= <- <-]. rewrite app_nil_r. repeat split; reflexivity.
Qed.

(** [forward] performs the thirteen steps of the contract, each adapter
    step being performed when the adapter exists. *)
Lemma forward_steps_refines self x mask kpm am s :
  forward self x mask kpm am s = forward_steps true true self x mask kpm am s.
Proof.
  unfold forward, forward_steps, bind.
  destruct (assert (is_None mask) s) as [s1 [[]|e]]; [|reflexivity].
  destruct (call Ev_self_attn _ s1) as [s2 [[a w]|e]]; reflexivity.
Qed.

(** What a forward call that returns has computed, value by value. *)
Lemma forward_Ok_inv self x mask kpm am s s' y w :
  forward self x mask kpm am s = (s', Ok (y, w)) ->
  mask = None /\
  exists g1 a a1 g2 d1 r1 x1 h1 g3 d2 h2 d3 f r2,
    MultiheadAttention_forward (self_attn self) x x x kpm false am (generator s)
      = (g1, Ok (a, w)) /\
    apply_adapter (self_attn_adapter self) a = Ok a1 /\
    F_dropout a1 (dropout self) (training self) g1 = (g2, Ok d1) /\
    tensor_add x d1 = Ok r1 /\
    LayerNorm_forward (self_attn_layer_norm self) r1 = Ok x1 /\
    Linear_forward (fc1 self) x1 = Ok h1 /\
    F_dropout (activation_fn self h1) (activation_dropout self) (training self) g2
      = (g3, Ok d2) /\
    Linear_forward (fc2 self) d2 = Ok h2 /\
    F_dropout h2 (dropout self) (training self) g3 = (generator s', Ok d3) /\
    apply_adapter (ff_adapter self) d3 = Ok f /\
    tensor_add x1 f = Ok r2 /\
    LayerNorm_forward (final_layer_norm self) r2 = Ok y /\
    trace s' = trace s ++ forward_events self.
Proof.
  rewrite forward_steps_refines. unfold forward_steps. intros H.
  apply bind_Ok_inv in H. destruct H as ([] & s0 & Hassert & H).
  destruct mask as [m|]; [discriminate|].
  unfold assert, is_None, ret in Hassert. injection Hassert as <-.
  split; [reflexivity|].
  apply bind_Ok_inv in H. destruct H as ([a w'] & s1 & H1 & H).
  apply call_Ok_inv in H1. destruct H1 as [H1 T1].
  apply bind_Ok_inv in H. destruct H as (a1 & s2 & H2 & H).
  apply adapter_step_Ok_inv in H2. destruct H2 as (H2 & G2 & T2).
  apply bind_Ok_inv in H. destruct H as (d1 & s3 & H3 & H).
  apply call_Ok_inv in H3. destruct H3 as [H3 T3].
  apply bind_Ok_inv in H. destruct H as (r1 & s4 & H4 & H).
  apply call_pure_Ok_inv in H4. destruct H4 as (H4 & G4 & T4).
  apply bind_Ok_inv in H. destruct H as (x1 & s5 & H5 & H).
  apply call_pure_Ok_inv in H5. destruct H5 as (H5 & G5 & T5).
  apply bind_Ok_inv in H. destruct H as (h1 & s6 & H6 & H).
  apply call_pure_Ok_inv in H6. destruct H6 as (H6 & G6 & T6).
  apply bind_Ok_inv in H. destruct H as (h1' & s7 & H7 & H).
  apply call_pure_Ok_inv in H7. destruct H7 as (H7 & G7 & T7).
  apply bind_Ok_inv in H. destruct H as (d2 & s8 & H8 & H).
  apply call_Ok_inv in H8. destruct H8 as [H8 T8].
  apply bind_Ok_inv in H. destruct H as (h2 & s9 & H9 & H).
  apply call_pure_Ok_inv in H9. destruct H9 as (H9 & G9 & T9).
  apply bind_Ok_inv in H. destruct H as (d3 & s10 & H10 & H).
  apply call_Ok_inv in H10. destruct H10 as [H10 T10].
  apply bind_Ok_inv in H. destruct H as (f & s11 & H11 & H).
  apply adapter_step_Ok_inv in H11. destruct H11 as (H11 & G11 & T11).
  apply bind_Ok_inv in H. destruct H as (r2 & s12 & H12 & H).
  apply call_pure_Ok_inv in H12. destruct H12 as (H12 & G12 & T12).
  apply bind_Ok_inv in H. destruct H as (n & s13 & H13 & H).
  apply call_pure_Ok_inv in H13. destruct H13 as (H13 & G13 & T13).
  unfold ret in H. injection H as <- <- <-.
  injection H7 as <-. simpl fst in *. simpl snd in *.
  exists (generator s1), a, a1, (generator s3), d1, r1, x1, h1,
         (generator s8), d2, h2, d3, f, r2.
  repeat split; try assumption; try congruence.
  - rewrite T13, T12, T11, T10, T9, T8, T7, T6, T5, T4, T3, T2, T1.
    unfold forward_events. rewrite <- !app_assoc. reflexivity.
Qed.

End ForwardFacts.

(** ** Order of the calls and flow of the values *)

Section Order.
Context {T : Torch}.

(** C1 (amended). In a forward call that returns, the calls made are
    exactly [forward_events].  The self-attention-side adapter, when it
    exists, is called on the attention output, before the output dropout
    and before the residual add of its sub-block.  The feed-forward-side
    adapter, when it exists, is called on the result of the output
    dropout, hence after it, and before the residual add of its
    sub-block. *)
Theorem adapter_placement self x mask kpm am s s' y w :
  forward self x mask kpm am s = (s', Ok (y, w)) ->
  trace s' = trace s ++ forward_events self /\
  (forall a, self_attn_adapter self = Some a ->
     precedes (Ev_adapter SelfAttn) (Ev_dropout SelfAttn) (forward_events self) = true /\
     precedes (Ev_adapter SelfAttn) (Ev_add SelfAttn) (forward_events self) = true) /\
  (forall a, ff_adapter self = Some a ->
     precedes (Ev_dropout Ffn) (Ev_adapter Ffn) (forward_events self) = true /\
     precedes (Ev_adapter Ffn) (Ev_add Ffn) (forward_events self) = true) /\
  (exists g1 attended adapted g2 dropped summed,
     MultiheadAttention_forward (self_attn self) x x x kpm false am (generator s)
       = (g1, Ok (attended, w)) /\
     apply_adapter (self_attn_adapter self) attended = Ok adapted /\
     F_dropout adapted (dropout self) (training self) g1 = (g2, Ok dropped) /\
     tensor_add x dropped = Ok summed) /\
  (exists anchor h g3 dropped adapted summed,
     F_dropout h (dropout self) (training self) g3 = (generator s', Ok dropped) /\
     apply_adapter (ff_adapter self) dropped = Ok adapted /\
     tensor_add anchor adapted = Ok summed /\
     LayerNorm_forward (final_layer_norm self) summed = Ok y).
Proof.
  intros H. apply forward_Ok_inv in H.
  destruct H as (_ & g1 & a & a1 & g2 & d1 & r1 & x1 & h1 & g3 & d2 & h2 & d3 & f & r2
                 & H1 & H2 & H3 & H4 & H5 & H6 & H7 & H8 & H9 & H10 & H11 & H12 & Htr).
  split; [exact Htr|].
  split; [|split].
  - intros ad Had. unfold forward_events. rewrite Had.
    destruct (ff_adapter self); split; reflexivity.
  - intros ad Had. unfold forward_events. rewrite Had.
    destruct (self_attn_adapter self); split; reflexivity.
  - split.
    + exists g1, a, a1, g2, d1, r1. auto.
    + exists x1, h2, g3, d3, f, r2. auto.
Qed.

(** C2. In a forward call that returns, the feed-forward sub-block
    starts from the anchor [anchor] produced by the post-attention
    normalization and computes, in this order: [fc1], the activation
    function, activation dropout, [fc2], output dropout, the
    feed-forward-side adapter if it exists, the residual add of
    [anchor], and the final normalization, whose result is returned. *)
Theorem feed_forward_order self x mask kpm am s s' y w :
  forward self x mask kpm am s = (s', Ok (y, w)) ->
  exists pre anchor h1 g2 g3 d2 h2 d3 f r before,
    LayerNorm_forward (self_attn_layer_norm self) pre = Ok anchor /\
    Linear_forward (fc1 self) anchor = Ok h1 /\
    F_dropout (activation_fn self h1) (activation_dropout self) (training self) g2
      = (g3, Ok d2) /\
    Linear_forward (fc2 self) d2 = Ok h2 /\
    F_dropout h2 (dropout self) (training self) g3 = (generator s', Ok d3) /\
    apply_adapter (ff_adapter self) d3 = Ok f /\
    tensor_add anchor f = Ok r /\
    LayerNorm_forward (final_layer_norm self) r = Ok y /\
    trace s' =
      trace s ++ before ++
      [Ev_layer_norm SelfAttn; Ev_fc1; Ev_activation_fn; Ev_activation_dropout;
       Ev_fc2; Ev_dropout Ffn] ++
      adapter_events Ffn (ff_adapter self) ++ [Ev_add Ffn; Ev_layer_norm Ffn].
Proof.
  intros H. apply forward_Ok_inv in H.
  destruct H as (_ & g1 & a & a1 & g2 & d1 & r1 & x1 & h1 & g3 & d2 & h2 & d3 & f & r2
                 & H1 & H2 & H3 & H4 & H5 & H6 & H7 & H8 & H9 & H10 & H11 & H12 & Htr).
  exists r1, x1, h1, g2, g3, d2, h2, d3, f, r2,
    ([Ev_self_attn] ++ adapter_events SelfAttn (self_attn_adapter self) ++
     [Ev_dropout SelfAttn; Ev_add SelfAttn]).
  repeat split; try assumption.
  rewrite Htr. unfold forward_events. rewrite <- !app_assoc. reflexivity.
Qed.

End Order.

(** ** Sizes through the layer *)

Section Shapes.
Context {T : Torch}.

Lemma call_Ok {A} e (f : SE Generator Exn A) s g (a : A) :
  f (generator s) = (g, Ok a) ->
  call e f s = ({| generator := g; trace := trace s ++ [e] |}, Ok a).
Proof. unfold call. intros ->. reflexivity. Qed.

Lemma call_pure_Ok {A} e (r : result Exn A) s (a : A) :
  r = Ok a -> call_pure e r s = (record_call e s, Ok a).
Proof. unfold call_pure. intros ->. reflexivity. Qed.

Lemma adapter_step_Ok b (o : option Adapter.t) x s y :
  apply_adapter o x = Ok y ->
  adapter_step b true o x s =
    ({| generator := generator s; trace := trace s ++ adapter_events b o |}, Ok y).
Proof.
  unfold adapter_step, apply_adapter, adapter_events. destruct o as [a|].
  - intros H. rewrite (call_pure_Ok (Ev_adapter b) _ s y H). reflexivity.
  - intros [= <-]. destruct s. unfold ret. simpl. rewrite app_nil_r. reflexivity.
Qed.

Lemma apply_adapter_defined (HS : ShapeSpec) d (o : option Adapter.t) x :
  (forall a, o = Some a -> Adapter.wf d a) ->
  trailing (size x) = Some d ->
  exists y, apply_adapter o x = Ok y /\ size y = size x.
Proof.
  intros Hwf Hx. destruct o as [a|].
  - destruct (Adapter_forward_defined HS d a x (Hwf a eq_refl) Hx)
      as (h & u & y & _ & _ & _ & _ & Sy & Hy).
    exists y. split; assumption.
  - exists x. split; reflexivity.
Qed.

Lemma make_adapter_Ok_inv (HS : ShapeSpec) d dim name g g' (o : option Adapter.t) :
  make_adapter d dim name g = (g', Ok o) ->
  (truthy dim = false -> o = None /\ g' = g) /\
  (truthy dim = true -> exists a, o = Some a) /\
  (forall a, o = Some a -> Adapter.wf d a).
Proof.
  unfold make_adapter. destruct (truthy dim) eqn:Ht.
  - destruct dim as [n|]; [|discriminate]. intros H.
    apply bind_Ok_inv in H. destruct H as (a & g1 & Ha & H).
    unfold ret in H. injection H as <- <-.
    split; [discriminate|]. split; [intros _; exists a; reflexivity|].
    intros a' [= <-]. exact (Adapter_init_wf HS _ _ _ _ _ _ Ha).
  - unfold ret. intros [= <- <-].
    split; [auto|]. split; [discriminate|]. intros a [=].
Qed.

(** The constructor establishes the structural invariant. *)
Lemma init_wf (HS : ShapeSpec) d f h p pa pact name bkv za ex sa ff g g' self :
  __init__ d f h p pa pact name bkv za ex sa ff g = (g', Ok self) ->
  wf self /\ embedding_dim self = d /\ training self = true /\
  dropout self = p /\ activation_dropout self = pact.
Proof.
  unfold __init__. intros H.
  apply bind_Ok_inv in H. destruct H as (act & g0 & H0 & H).
  injection H0 as <- Hact.
  apply bind_Ok_inv in H. destruct H as (m & g1 & H1 & H).
  apply bind_Ok_inv in H. destruct H as (n1 & g2 & H2 & H).
  apply bind_Ok_inv in H. destruct H as (l1 & g3 & H3 & H).
  apply bind_Ok_inv in H. destruct H as (l2 & g4 & H4 & H).
  apply bind_Ok_inv in H. destruct H as (n2 & g5 & H5 & H).
  apply bind_Ok_inv in H. destruct H as (a1 & g6 & H6 & H).
  apply bind_Ok_inv in H. destruct H as (a2 & g7 & H7 & H).
  unfold ret in H. injection H as <- <-.
  apply (MultiheadAttention_init_dim HS) in H1.
  apply (LayerNorm_init_shape HS) in H2, H5.
  apply (Linear_init_features HS) in H3, H4.
  destruct H3 as [I3 O3], H4 as [I4 O4].
  apply (make_adapter_Ok_inv HS) in H6, H7.
  split; [|repeat split].
  constructor; simpl; try congruence.
  - intros x. exact (activation_fn_size HS name act x Hact).
  - apply H6.
  - apply H7.
Qed.

(** On a well-sized input a well-formed layer with admissible dropout
    probabilities runs to the end, and the size is kept. *)
Lemma forward_defined (HS : ShapeSpec) self x kpm am L B s :
  wf self ->
  prob_ok (dropout self) = true ->
  prob_ok (activation_dropout self) = true ->
  0 < L -> 0 < B ->
  size x = [L; B; embedding_dim self] ->
  masks_ok L B kpm am = true ->
  exists s' y w,
    forward self x None kpm am s = (s', Ok (y, w)) /\ size y = size x.
Proof.
  intros W Hp Hpa HL HB Hx Hm.
  assert (Htr : forall z, size z = size x -> trailing (size z) = Some (embedding_dim self)).
  { intros z ->. rewrite Hx. reflexivity. }
  destruct (MultiheadAttention_forward_size HS (self_attn self) x kpm false am
              (generator s) L B HL HB) as (g1 & a & w & H1 & S1);
    [rewrite (wf_self_attn _ W); exact Hx | exact Hm |].
  destruct (apply_adapter_defined HS (embedding_dim self) (self_attn_adapter self) a
              (wf_self_attn_adapter _ W) (Htr _ S1)) as (a1 & H2 & S2).
  rewrite S1 in S2.
  destruct (F_dropout_size HS a1 (dropout self) (training self) g1 Hp)
    as (g2 & d1 & H3 & S3). rewrite S2 in S3.
  destruct (tensor_add_size HS x d1 (eq_sym S3)) as (r1 & H4 & S4).
  destruct (LayerNorm_forward_size HS (self_attn_layer_norm self) r1) as (x1 & H5 & S5).
  { rewrite (wf_self_attn_layer_norm _ W). apply Htr, S4. }
  rewrite S4 in S5.
  destruct (Linear_forward_size HS (fc1 self) x1) as (h1 & H6 & S6).
  { rewrite (wf_fc1_in _ W). apply Htr, S5. }
  pose proof (wf_activation_fn _ W h1) as S7.
  destruct (F_dropout_size HS (activation_fn self h1) (activation_dropout self)
              (training self) g2 Hpa) as (g3 & d2 & H8 & S8).
  destruct (Linear_forward_size HS (fc2 self) d2) as (h2 & H9 & S9).
  { rewrite S8, S7, S6, trailing_app_last, (wf_fc1_fc2 _ W). reflexivity. }
  assert (S9' : size h2 = size x).
  { rewrite S9, S8, S7, S6, removelast_last, (wf_fc2_out _ W), S5.
    apply trailing_removelast, Htr. reflexivity. }
  destruct (F_dropout_size HS h2 (dropout self) (training self) g3 Hp)
    as (g4 & d3 & H10 & S10). rewrite S9' in S10.
  destruct (apply_adapter_defined HS (embedding_dim self) (ff_adapter self) d3
              (wf_ff_adapter _ W) (Htr _ S10)) as (f & H11 & S11).
  rewrite S10 in S11.
  destruct (tensor_add_size HS x1 f) as (r2 & H12 & S12); [congruence|].
  destruct (LayerNorm_forward_size HS (final_layer_norm self) r2) as (y & H13 & S13).
  { rewrite (wf_final_layer_norm _ W). apply Htr. congruence. }
  eexists _, y, w. split; [|congruence].
  rewrite forward_steps_refines. unfold forward_steps.
  erewrite bind_Ok by reflexivity.
  erewrite bind_Ok by (apply call_Ok; exact H1).
  erewrite bind_Ok by (apply adapter_step_Ok; exact H2).
  erewrite bind_Ok by (apply call_Ok; exact H3).
  erewrite bind_Ok by (apply call_pure_Ok; exact H4).
  erewrite bind_Ok by (apply call_pure_Ok; exact H5).
  erewrite bind_Ok by (apply call_pure_Ok; exact H6).
  erewrite bind_Ok by (apply call_pure_Ok; reflexivity).
  erewrite bind_Ok by (apply call_Ok; exact H8).
  erewrite bind_Ok by (apply call_pure_Ok; exact H9).
  erewrite bind_Ok by (apply call_Ok; exact H10).
  erewrite bind_Ok by (apply adapter_step_Ok; exact H11).
  erewrite bind_Ok by (apply call_pure_Ok; exact H12).
  erewrite bind_Ok by (apply call_pure_Ok; exact H13).
  reflexivity.
Qed.

(** C7. For a well-formed layer (as the constructor builds it) with
    admissible dropout probabilities, every input of size [(L, B, D)]
    with [D] the layer's embedding dimension, and masks the attention
    module accepts, [forward] returns, and the first component of what it
    returns has size [(L, B, D)]. *)
Theorem forward_preserves_size (HS : ShapeSpec) self x kpm am L B s :
  wf self ->
  prob_ok (dropout self) = true ->
  prob_ok (activation_dropout self) = true ->
  0 < L -> 0 < B ->
  size x = [L; B; embedding_dim self] ->
  masks_ok L B kpm am = true ->
  exists s' y w,
    forward self x None kpm am s = (s', Ok (y, w)) /\
    size y = [L; B; embedding_dim self].
Proof.
  intros W Hp Hpa HL HB Hx Hm.
  destruct (forward_defined HS self x kpm am L B s W Hp Hpa HL HB Hx Hm)
    as (s' & y & w & H & Sy).
  exists s', y, w. split; [exact H | congruence].
Qed.

End Shapes.

(** ** The attention weights *)

Section Weights.
Context {T : Torch}.

(** C9. [forward] calls the self-attention module with query, key and
    value all equal to its input and with [need_weights=False]; whenever
    it returns, the second component of the pair it returns is the
    weights value that call returned, unchanged.  On a well-sized input
    of a well-formed layer it does return. *)
Theorem forward_returns_attention_weights self x kpm am s :
  (forall mask s' y w,
     forward self x mask kpm am s = (s', Ok (y, w)) ->
     exists g attended,
       MultiheadAttention_forward (self_attn self) x x x kpm false am (generator s)
         = (g, Ok (attended, w))) /\
  (ShapeSpec -> wf self ->
   prob_ok (dropout self) = true -> prob_ok (activation_dropout self) = true ->
   forall L B, 0 < L -> 0 < B -> size x = [L; B; embedding_dim self] ->
   masks_ok L B kpm am = true ->
   exists s' y w, forward self x None kpm am s = (s', Ok (y, w))).
Proof.
  split.
  - intros mask s' y w H. apply forward_Ok_inv in H.
    destruct H as (_ & g1 & a & ? & ? & ? & ? & ? & ? & ? & ? & ? & ? & ? & ? & H1 & _).
    exists g1, a. exact H1.
  - intros HS W Hp Hpa L B HL HB Hx Hm.
    destruct (forward_defined HS self x kpm am L B s W Hp Hpa HL HB Hx Hm)
      as (s' & y & w & H & _).
    exists s', y, w. exact H.
Qed.

End Weights.

(** ** The precondition *)

Section Precondition.
Context {T : Torch}.

Lemma lift_exn_not_assertion {A} (r : result Exn A) :
  lift_exn r <> Err AssertionError.
Proof. destruct r; simpl; discriminate. Qed.

Lemma proceeds_ret {A} (a : A) : proceeds (ret a).
Proof.
  intros s. split; [discriminate|]. exists []. simpl. symmetry. apply app_nil_r.
Qed.

Lemma proceeds_call {A} e (f : SE Generator Exn A) : proceeds (call e f).
Proof.
  intros s. unfold call. destruct (f (generator s)) as [g r]. simpl.
  split; [apply lift_exn_not_assertion|]. exists [e]. reflexivity.
Qed.

Lemma proceeds_call_pure {A} e (r : result Exn A) : proceeds (call_pure e r).
Proof.
  intros s. unfold call_pure. simpl.
  split; [apply lift_exn_not_assertion|]. exists [e]. reflexivity.
Qed.

Lemma proceeds_bind {A B} (m : SE State Error A) (k : A -> SE State Error B) :
  proceeds m -> (forall a, proceeds (k a)) -> proceeds (bind m k).
Proof.
  intros Hm Hk s. unfold bind. specialize (Hm s).
  destruct (m s) as [s1 [a|e]]; simpl in Hm; destruct Hm as [Hne [evs Hevs]].
  - destruct (Hk a s1) as [Hne' [evs' Hevs']]. split; [exact Hne'|].
    exists (evs ++ evs'). rewrite Hevs', Hevs. symmetry. apply app_assoc.
  - simpl. split; [|exists evs; exact Hevs].
    intros [= ->]. apply Hne. reflexivity.
Qed.

Lemma proceeds_after_call {A B} e (f : SE Generator Exn A)
    (k : A -> SE State Error B) s :
  (forall a, proceeds (k a)) ->
  snd (bind (call e f) k s) <> Err AssertionError /\
  exists evs, trace (fst (bind (call e f) k s)) = trace s ++ e :: evs.
Proof.
  intros Hk. unfold bind, call.
  destruct (f (generator s)) as [g [a|ex]]; simpl.
  - destruct (Hk a {| generator := g; trace := trace s ++ [e] |})
      as [Hne [evs Hevs]].
    split; [exact Hne|]. exists evs. rewrite Hevs. simpl.
    rewrite <- app_assoc. reflexivity.
  - split; [discriminate|]. exists []. reflexivity.
Qed.

Lemma proceeds_adapter_step b p (o : option Adapter.t) x :
  proceeds (adapter_step b p o x).
Proof.
  unfold adapter_step. destruct p; [destruct o|];
    auto using proceeds_ret, proceeds_call_pure.
Qed.

(** C3. A call of [forward] with a general self-attention mask fails
    the assertion, whatever the layer, the input, the other two masks
    and the state.  Without one the assertion does not fail: the call
    goes on to invoke the self-attention module first, and whatever it
    raises later is not the assertion's failure. *)
Theorem forward_precondition self x kpm am s :
  (forall m, snd (forward self x (Some m) kpm am s) = Err AssertionError) /\
  snd (forward self x None kpm am s) <> Err AssertionError /\
  exists evs,
    trace (fst (forward self x None kpm am s)) = trace s ++ Ev_self_attn :: evs.
Proof.
  split; [reflexivity|].
  rewrite forward_steps_refines. unfold forward_steps.
  rewrite (bind_Ok (assert (is_None None)) _ s s tt eq_refl).
  apply proceeds_after_call. intros a.
  repeat (apply proceeds_bind; [|intros ?]);
    auto using proceeds_ret, proceeds_call, proceeds_call_pure,
               proceeds_adapter_step.
Qed.

(** C10. A call of [forward] with a general self-attention mask ends
    in the state it started in: no call is recorded and the generator is
    untouched.  Its outcome is the same for every layer, input and other
    masks, so nothing of the layer has been consulted. *)
Theorem rejected_call_does_nothing self x m kpm am s :
  fst (forward self x (Some m) kpm am s) = s /\
  trace (fst (forward self x (Some m) kpm am s)) = trace s /\
  generator (fst (forward self x (Some m) kpm am s)) = generator s /\
  forall self' x' kpm' am',
    forward self' x' (Some m) kpm' am' s = forward self x (Some m) kpm am s.
Proof. repeat split. Qed.

End Precondition.

(** ** Inference mode *)

Section Inference.
Context {T : Torch}.

Lemma independent_ret {A} (a : A) : generator_independent (ret a).
Proof. exists (Ok a). intros s. split; reflexivity. Qed.

Lemma independent_assert b : generator_independent (assert b).
Proof.
  destruct b; [apply independent_ret|].
  exists (Err AssertionError). intros s. split; reflexivity.
Qed.

Lemma independent_call_pure {A} e (r : result Exn A) :
  generator_independent (call_pure e r).
Proof. exists (lift_exn r). intros s. split; reflexivity. Qed.

Lemma independent_call {A} e (f : SE Generator Exn A) :
  (exists r, forall g, f g = (g, r)) -> generator_independent (call e f).
Proof.
  intros [r Hr]. exists (lift_exn r). intros s. unfold call.
  rewrite Hr. split; reflexivity.
Qed.

Lemma independent_bind {A B} (m : SE State Error A) (k : A -> SE State Error B) :
  generator_independent m -> (forall a, generator_independent (k a)) ->
  generator_independent (bind m k).
Proof.
  intros [r Hr] Hk. destruct r as [a|e].
  - destruct (Hk a) as [r' Hr']. exists r'. intros s. unfold bind.
    destruct (Hr s) as [Hs Hg]. destruct (m s) as [s1 r0]. simpl in Hs, Hg.
    subst r0. destruct (Hr' s1) as [Hs' Hg']. split; congruence.
  - exists (Err e). intros s. unfold bind.
    destruct (Hr s) as [Hs Hg]. destruct (m s) as [s1 r0]. simpl in Hs, Hg.
    subst r0. split; [reflexivity | exact Hg].
Qed.

Lemma independent_adapter_step b p (o : option Adapter.t) x :
  generator_independent (adapter_step b p o x).
Proof.
  unfold adapter_step. destruct p; [destruct o|];
    auto using independent_ret, independent_call_pure.
Qed.

Lemma forward_independent (HE : EvalSpec) self x mask kpm am :
  inference_mode self ->
  generator_independent (forward_steps true true self x mask kpm am).
Proof.
  intros [Htr Hattn]. unfold forward_steps. rewrite Htr.
  apply independent_bind; [apply independent_assert | intros _].
  apply independent_bind;
    [apply independent_call, (MultiheadAttention_eval HE), Hattn | intros r].
  repeat (apply independent_bind; [|intros ?]);
    try (apply independent_call, (F_dropout_eval HE));
    auto using independent_ret, independent_call_pure, independent_adapter_step.
Qed.

(** C8. With the layer in inference mode, the outcome of [forward] on
    given arguments is the same from every state: it depends neither on
    the random generator nor on the calls made before, so two calls on
    identical inputs return identical results.  The call leaves the
    generator as it found it. *)
Theorem forward_deterministic_in_inference (HE : EvalSpec) self x mask kpm am :
  inference_mode self ->
  forall s1 s2,
    snd (forward self x mask kpm am s1) = snd (forward self x mask kpm am s2) /\
    generator (fst (forward self x mask kpm am s1)) = generator s1.
Proof.
  intros Hmode s1 s2.
  destruct (forward_independent HE self x mask kpm am Hmode) as [r Hr].
  rewrite !forward_steps_refines.
  destruct (Hr s1) as [H1 G1], (Hr s2) as [H2 _].
  split; congruence.
Qed.

End Inference.

(** ** Absent adapters *)

Section Construction.
Context {T : Torch}.

Lemma make_adapter_falsy d dim name g :
  truthy dim = false -> make_adapter d dim name g = (g, Ok None).
Proof. unfold make_adapter. intros ->. reflexivity. Qed.

Lemma init_adapters d f h p pa pact name bkv za ex sa ff g g' self :
  __init__ d f h p pa pact name bkv za ex sa ff g = (g', Ok self) ->
  exists g1 g2,
    make_adapter d sa name g1 = (g2, Ok (self_attn_adapter self)) /\
    make_adapter d ff name g2 = (g', Ok (ff_adapter self)).
Proof.
  unfold __init__. intros H.
  do 6 (apply bind_Ok_inv in H; destruct H as (? & ? & _ & H)).
  apply bind_Ok_inv in H. destruct H as (a1 & g2 & H1 & H).
  apply bind_Ok_inv in H. destruct H as (a2 & g3 & H2 & H).
  unfold ret in H. injection H as <- <-. simpl. eauto.
Qed.

Lemma make_adapter_truthy d dim name g g' (o : option Adapter.t) :
  truthy dim = true -> make_adapter d dim name g = (g', Ok o) ->
  exists a, o = Some a.
Proof.
  unfold make_adapter. intros Ht. destruct dim as [n|]; [|discriminate Ht].
  rewrite Ht. intros H. apply bind_Ok_inv in H. destruct H as (a & g1 & _ & H).
  unfold ret in H. injection H as _ <-. exists a. reflexivity.
Qed.

(** A truthy dimension does give the layer its adapter. *)
Lemma truthy_dimension_adapter d f h p pa pact name bkv za ex sa ff g g' self :
  __init__ d f h p pa pact name bkv za ex sa ff g = (g', Ok self) ->
  (truthy sa = true -> exists a, self_attn_adapter self = Some a) /\
  (truthy ff = true -> exists a, ff_adapter self = Some a).
Proof.
  intros H. apply init_adapters in H. destruct H as (g1 & g2 & H1 & H2).
  split; intros Ht; eapply make_adapter_truthy; eassumption.
Qed.

Lemma falsy_cases (dim : option Z) :
  dim = None \/ dim = Some 0 -> truthy dim = false.
Proof. intros [-> | ->]; reflexivity. Qed.

Lemma skip_absent_self_attn_adapter step10 self x mask kpm am s :
  self_attn_adapter self = None ->
  forward_steps true step10 self x mask kpm am s =
  forward_steps false step10 self x mask kpm am s.
Proof. unfold forward_steps, adapter_step. intros ->. reflexivity. Qed.

Lemma skip_absent_ff_adapter step4 self x mask kpm am s :
  ff_adapter self = None ->
  forward_steps step4 true self x mask kpm am s =
  forward_steps step4 false self x mask kpm am s.
Proof. unfold forward_steps, adapter_step. intros ->. destruct step4; reflexivity. Qed.

(** C6. If the constructor is given a self-attention-side adapter
    dimension that is absent or zero, the layer it builds has no
    [self_attn_adapter], and [forward] computes what the forward
    contract computes with step 4 skipped; likewise for the
    feed-forward-side dimension, [ff_adapter] and step 10. *)
Theorem absent_dimension_no_adapter d f h p pa pact name bkv za ex sa ff g g' self :
  __init__ d f h p pa pact name bkv za ex sa ff g = (g', Ok self) ->
  (sa = None \/ sa = Some 0 ->
     self_attn_adapter self = None /\
     forall x mask kpm am s,
       forward self x mask kpm am s = forward_steps false true self x mask kpm am s) /\
  (ff = None \/ ff = Some 0 ->
     ff_adapter self = None /\
     forall x mask kpm am s,
       forward self x mask kpm am s = forward_steps true false self x mask kpm am s).
Proof.
  intros H. apply init_adapters in H. destruct H as (g1 & g2 & H1 & H2).
  split; intros Hdim; apply falsy_cases in Hdim.
  - rewrite (make_adapter_falsy d sa name g1 Hdim) in H1.
    injection H1 as _ H1. symmetry in H1. split; [exact H1|].
    intros. rewrite forward_steps_refines.
    apply skip_absent_self_attn_adapter, H1.
  - rewrite (make_adapter_falsy d ff name g2 Hdim) in H2.
    injection H2 as _ H2. symmetry in H2. split; [exact H2|].
    intros. rewrite forward_steps_refines.
    apply skip_absent_ff_adapter, H2.
Qed.

End Construction.

(** ** The executable instance meets the contracts *)

Lemma size_eqb_refl (a : list Z) : Toy.size_eqb a a = true.
Proof. induction a as [|x a IH]; simpl; [reflexivity|]. rewrite Z.eqb_refl. exact IH. Qed.

Lemma size_eqb_eq (a b : list Z) : Toy.size_eqb a b = true -> a = b.
Proof.
  revert b. induction a as [|x a IH]; intros [|y b]; simpl; try discriminate.
  - reflexivity.
  - intros H. apply andb_true_iff in H. destruct H as [Hxy Hab].
    apply Z.eqb_eq in Hxy. f_equal; [exact Hxy | apply IH, Hab].
Qed.

Lemma Toy_ShapeSpec : @ShapeSpec Toy.torch.
Proof.
  constructor; simpl.
  - intros i o g g' l. unfold Toy.linear_init.
    destruct ((0 <? i) && (0 <? o)); [|discriminate].
    intros [= _ <-]. split; reflexivity.
  - intros d e g g' n. unfold Toy.layer_norm_init. intros [= _ <-]. reflexivity.
  - intros d h p bkv za sa g g' m. unfold Toy.attention_init.
    destruct ((0 <? h) && (d mod h =? 0) && Toy.percent_ok p); [|discriminate].
    intros [= _ <-]. reflexivity.
  - intros name f x. unfold Toy.activation_of.
    destruct (String.eqb name "relu"); [intros [= <-]; reflexivity|].
    destruct (String.eqb name "linear"); [intros [= <-]; reflexivity|discriminate].
  - intros l x Hx. unfold Toy.linear_forward. rewrite Hx, Z.eqb_refl.
    eexists. split; reflexivity.
  - intros n x Hx. unfold Toy.layer_norm_forward. rewrite Hx, Z.eqb_refl.
    eexists. split; reflexivity.
  - intros a b Hab. unfold Toy.add. rewrite Hab, size_eqb_refl.
    eexists. split; [reflexivity | simpl; congruence].
  - intros x p tr g Hp. unfold Toy.dropout. rewrite Hp. destruct tr.
    + eexists _, _. split; [reflexivity|]. destruct (g mod 100 <? p); reflexivity.
    + eexists _, _. split; reflexivity.
  - intros m x kpm nw am g L B _ _ Hx Hm. unfold Toy.attention_forward.
    rewrite Hx, Z.eqb_refl, size_eqb_refl, Hm. simpl.
    destruct (Toy.m_training m && (0 <? Toy.m_dropout m));
      eexists _, _, _; split; reflexivity.
Qed.

Lemma Toy_EvalSpec : @EvalSpec Toy.torch.
Proof.
  constructor; simpl.
  - intros x p. unfold Toy.dropout.
    destruct (Toy.percent_ok p); eexists; intros g; reflexivity.
  - intros m Hm q k v kpm nw am. unfold Toy.attention_forward. rewrite Hm. simpl.
    destruct (Toy.t_size q) as [|L [|B [|E [|? ?]]]];
      try (eexists; intros g; reflexivity).
    destruct ((E =? Toy.m_dim m) && Toy.size_eqb (Toy.t_size k) [L; B; E]
              && Toy.size_eqb (Toy.t_size v) [L; B; E]
              && Toy.attention_masks_ok L B kpm am);
      eexists; intros g; reflexivity.
Qed.

Lemma Toy_ZeroSpec : @ZeroSpec Toy.torch.
Proof.
  constructor; simpl. intros z x Hz Hs. unfold Toy.add.
  rewrite Hs, size_eqb_refl. apply Z.eqb_eq in Hz. rewrite Hz.
  destruct x; reflexivity.
Qed.

Lemma Toy_relu_size (x : Toy.tensor) : Toy.t_size (Toy.relu x) = Toy.t_size x.
Proof. reflexivity. Qed.

Lemma Toy_both_adapters_wf (mode : bool) : wf (Toy.both_adapters mode).
Proof.
  constructor; simpl; try reflexivity;
    intros a [= <-]; repeat split.
Qed.

Lemma Toy_zero_adapter_wf : Adapter.wf 4 Toy.zero_adapter.
Proof. repeat split. Qed.

Lemma Toy_zero_adapter_up (h u : Toy.tensor) :
  Toy.linear_forward (Adapter.fc2 Toy.zero_adapter) h = Ok u -> (Toy.t_val u =? 0) = true.
Proof.
  unfold Toy.linear_forward. destruct (trailing (Toy.t_size h)) as [d|]; [|discriminate].
  destruct (d =? _); [|discriminate]. intros [= <-]. reflexivity.
Qed.

(** The constructor, run from generator state 0, builds the two example
    layers. *)
Example Toy_init_both_adapters :
  __init__ (T := Toy.torch) 4 8 2 (50 : Z) (0 : Z) (0 : Z) "relu" false false false
    (Some 2) (Some 2) (0 : Z) = (7, Ok (Toy.both_adapters true)).
Proof. reflexivity. Qed.

Example Toy_init_no_adapters :
  __init__ (T := Toy.torch) 4 8 2 (50 : Z) (0 : Z) (0 : Z) "relu" false false false
    None (Some 0) (0 : Z) = (3, Ok (Toy.no_adapters true)).
Proof. reflexivity. Qed.

(** In training mode the outcome does depend on the generator. *)
Example Toy_training_depends_on_generator :
  snd (forward (Toy.both_adapters true) Toy.x0 None None None Toy.s0) <>
  snd (forward (Toy.both_adapters true) Toy.x0 None None None
         {| generator := 60 : @Generator Toy.torch; trace := [] |}).
Proof. vm_compute. discriminate. Qed.

(** With an adapter present, skipping its step changes the result. *)
Example Toy_skipping_a_present_adapter_differs :
  snd (forward (Toy.both_adapters false) Toy.x0 None None None Toy.s0) <>
  snd (forward_steps false true (Toy.both_adapters false) Toy.x0 None None None Toy.s0).
Proof. vm_compute. discriminate. Qed.

(** ** The theorems at work on the executable instance *)

(** The run of the layer with both adapters, in training mode, on [x0]. *)
Lemma adapter_placement_witness :
  forward (Toy.both_adapters true) Toy.x0 None None None Toy.s0 =
    ({| generator := 3 : @Generator Toy.torch;
        trace := forward_events (Toy.both_adapters true) |},
     Ok ({| Toy.t_size := [2; 1; 4]; Toy.t_val := 2 |}, None)) /\
  precedes (Ev_adapter SelfAttn) (Ev_dropout SelfAttn)
    (forward_events (Toy.both_adapters true)) = true /\
  precedes (Ev_dropout Ffn) (Ev_adapter Ffn)
    (forward_events (Toy.both_adapters true)) = true /\
  precedes (Ev_adapter Ffn) (Ev_add Ffn)
    (forward_events (Toy.both_adapters true)) = true.
Proof.
  split; [reflexivity|].
  pose proof (adapter_placement (Toy.both_adapters true) Toy.x0 None None None
                Toy.s0 _ _ _ eq_refl) as (_ & Hsa & Hff & _).
  destruct (Hsa _ eq_refl) as [H1 _]. destruct (Hff _ eq_refl) as [H2 H3].
  repeat split; assumption.
Defined.

(** C1 as the summary sentence states it fails on that run: the
    feed-forward-side adapter is called, and it is not called before the
    output dropout of its sub-block. *)
Lemma adapter_before_dropout_counterexample :
  ~ adapter_before_dropout_and_add
      (trace (fst (forward (Toy.both_adapters true) Toy.x0 None None None Toy.s0))).
Proof.
  intros H. destruct (H Ffn) as [H1 _].
  - vm_compute. tauto.
  - vm_compute in H1. discriminate H1.
Qed.

Lemma feed_forward_order_witness :
  forward (Toy.no_adapters false) Toy.x0 None None None Toy.s0 =
    ({| generator := 0 : @Generator Toy.torch;
        trace := forward_events (Toy.no_adapters false) |},
     Ok ({| Toy.t_size := [2; 1; 4]; Toy.t_val := 19 |}, None)) /\
  exists anchor h1 d2 h2 d3 f r : Toy.tensor,
    Toy.linear_forward (fc1 (Toy.no_adapters false)) anchor = Ok h1 /\
    Toy.dropout (Toy.relu h1) 0 false 0 = (0, Ok d2) /\
    Toy.linear_forward (fc2 (Toy.no_adapters false)) d2 = Ok h2 /\
    Toy.dropout h2 50 false 0 = (0, Ok d3) /\
    apply_adapter (ff_adapter (Toy.no_adapters false)) d3 = Ok f /\
    Toy.add anchor f = Ok r /\
    Toy.layer_norm_forward (final_layer_norm (Toy.no_adapters false)) r =
      Ok {| Toy.t_size := [2; 1; 4]; Toy.t_val := 19 |}.
Proof.
  split; [reflexivity|].
  destruct (feed_forward_order (Toy.no_adapters false) Toy.x0 None None None
              Toy.s0 _ _ _ eq_refl)
    as (pre & anchor & h1 & g2 & g3 & d2 & h2 & d3 & f & r & before
        & _ & H1 & H2 & H3 & H4 & H5 & H6 & H7 & _).
  simpl in H2, H4.
  assert (G3 : g3 = 0) by (unfold Toy.dropout in H4; simpl in H4; congruence).
  assert (G2 : g2 = 0) by (unfold Toy.dropout in H2; simpl in H2; congruence).
  subst g2 g3.
  exists anchor, h1, d2, h2, d3, f, r. repeat split; assumption.
Defined.

Lemma forward_returns_attention_weights_witness :
  exists s' y w, forward (Toy.both_adapters true) Toy.x0 None None None Toy.s0
                 = (s', Ok (y, w)).
Proof.
  apply (proj2 (forward_returns_attention_weights (Toy.both_adapters true) Toy.x0
                  None None Toy.s0) Toy_ShapeSpec (Toy_both_adapters_wf true)
           eq_refl eq_refl 2 1);
    reflexivity.
Defined.

Lemma Adapter_forward_formula_witness :
  Adapter.__init__ (T := Toy.torch) 4 2 "relu" (0 : Z) = (2, Ok Toy.built_adapter) /\
  trailing (Toy.t_size Toy.x0) = Some 4 /\
  exists down up y : Toy.tensor,
    Toy.linear_forward (Adapter.fc1 Toy.built_adapter) Toy.x0 = Ok down /\
    Toy.linear_forward (Adapter.fc2 Toy.built_adapter) (Toy.relu down) = Ok up /\
    Toy.add up Toy.x0 = Ok y /\
    Adapter.forward Toy.built_adapter Toy.x0 = Ok y.
Proof.
  split; [reflexivity|]. split; [reflexivity|].
  exact (Adapter_forward_formula Toy_ShapeSpec 4 2 "relu" (0 : Z) (2 : Z)
           Toy.built_adapter Toy.x0 eq_refl eq_refl).
Defined.

Lemma Adapter_identity_at_zero_witness :
  Adapter.wf 4 Toy.zero_adapter /\
  trailing (Toy.t_size Toy.x0) = Some 4 /\
  Adapter.forward Toy.zero_adapter Toy.x0 = Ok Toy.x0.
Proof.
  split; [exact Toy_zero_adapter_wf|]. split; [reflexivity|].
  apply (Adapter_identity_at_zero Toy_ShapeSpec Toy_ZeroSpec 4 Toy.zero_adapter Toy.x0
           Toy_zero_adapter_wf eq_refl Toy_zero_adapter_up).
Defined.

Lemma absent_dimension_no_adapter_witness :
  self_attn_adapter (Toy.no_adapters true) = None /\
  ff_adapter (Toy.no_adapters true) = None /\
  forward (Toy.no_adapters true) Toy.x0 None None None Toy.s0 =
    forward_steps false true (Toy.no_adapters true) Toy.x0 None None None Toy.s0.
Proof.
  destruct (absent_dimension_no_adapter (T := Toy.torch) 4 8 2 (50 : Z) (0 : Z) (0 : Z) "relu"
              false false false None (Some 0) (0 : Z) (3 : Z) (Toy.no_adapters true)
              eq_refl) as [Hsa Hff].
  destruct (Hsa (or_introl eq_refl)) as [H1 H2].
  destruct (Hff (or_intror eq_refl)) as [H3 _].
  split; [exact H1|]. split; [exact H3 | apply H2].
Defined.

Lemma forward_preserves_size_witness :
  wf (Toy.both_adapters true) /\
  Toy.t_size Toy.x0 = [2; 1; 4] /\
  exists s' y w,
    forward (Toy.both_adapters true) Toy.x0 None None None Toy.s0 = (s', Ok (y, w)) /\
    Toy.t_size y = [2; 1; 4].
Proof.
  split; [apply Toy_both_adapters_wf|]. split; [reflexivity|].
  apply (forward_preserves_size Toy_ShapeSpec (Toy.both_adapters true) Toy.x0
           None None 2 1 Toy.s0 (Toy_both_adapters_wf true));
    reflexivity.
Defined.

Lemma forward_deterministic_in_inference_witness :
  inference_mode (Toy.both_adapters false) /\
  snd (forward (Toy.both_adapters false) Toy.x0 None None None Toy.s0) =
  snd (forward (Toy.both_adapters false) Toy.x0 None None None
         {| generator := 60 : @Generator Toy.torch; trace := [Ev_self_attn] |}).
Proof.
  split; [split; reflexivity|].
  apply (forward_deterministic_in_inference Toy_EvalSpec (Toy.both_adapters false)
           Toy.x0 None None None (conj eq_refl eq_refl)).
Defined.

(** * Further properties of the code *)

(** ** Failures of the forward pass *)

Section Failures.
Context {T : Torch}.










End Failures.

(** ** The calls of a forward pass that fails *)

Section Calls.
Context {T : Torch}.

Lemma logs_ret {A} (a : A) : logs (ret a) [].
Proof.
  intros s. exists [], []. simpl. rewrite app_nil_r. auto.
Qed.

Lemma logs_assert b : logs (assert b) [].
Proof.
  intros s. exists [], []. destruct b; simpl; rewrite app_nil_r; auto.
Qed.

Lemma logs_call {A} ev (f : SE Generator Exn A) : logs (call ev f) [ev].
Proof.
  intros s. exists [ev], []. unfold call.
  destruct (f (generator s)) as [g r]. simpl. auto.
Qed.

Lemma logs_call_pure {A} ev (r : result Exn A) : logs (call_pure ev r) [ev].
Proof. intros s. exists [ev], []. simpl. auto. Qed.

Lemma logs_adapter_step b (o : option Adapter.t) x :
  logs (adapter_step b true o x) (adapter_events b o).
Proof.
  unfold adapter_step, adapter_events. destruct o.
  - apply logs_call_pure.
  - apply logs_ret.
Qed.

Lemma logs_bind {A B} (m : SE State Error A) (k : A -> SE State Error B) l1 l2 :
  logs m l1 -> (forall a, logs (k a) l2) -> logs (bind m k) (l1 ++ l2).
Proof.
  intros Hm Hk s. unfold bind.
  destruct (Hm s) as (pre1 & post1 & E1 & T1 & R1).
  destruct (m s) as [s1 [a|e]]; simpl in T1, R1.
  - destruct (Hk a s1) as (pre2 & post2 & E2 & T2 & R2).
    rewrite (R1 eq_refl), app_nil_r in E1. subst l1 l2.
    exists (pre1 ++ pre2), post2. repeat split.
    + apply app_assoc.
    + rewrite T2, T1. symmetry. apply app_assoc.
    + exact R2.
  - exists pre1, (post1 ++ l2). simpl. repeat split.
    + rewrite E1. symmetry. apply app_assoc.
    + exact T1.
    + discriminate.
Qed.

Lemma forward_logs self x mask kpm am :
  logs (forward_steps true true self x mask kpm am) (forward_events self).
Proof.
  unfold forward_steps.
  change (forward_events self) with
    ([] ++ [Ev_self_attn] ++ adapter_events SelfAttn (self_attn_adapter self) ++
     [Ev_dropout SelfAttn] ++ [Ev_add SelfAttn] ++ [Ev_layer_norm SelfAttn] ++
     [Ev_fc1] ++ [Ev_activation_fn] ++ [Ev_activation_dropout] ++ [Ev_fc2] ++
     [Ev_dropout Ffn] ++ adapter_events Ffn (ff_adapter self) ++
     [Ev_add Ffn] ++ [Ev_layer_norm Ffn] ++ []).
  repeat (apply logs_bind; [|intros ?]);
    auto using logs_ret, logs_assert, logs_call, logs_call_pure, logs_adapter_step.
Qed.

Lemma forward_events_no_absent_adapter self :
  (self_attn_adapter self = None -> ~ In (Ev_adapter SelfAttn) (forward_events self)) /\
  (ff_adapter self = None -> ~ In (Ev_adapter Ffn) (forward_events self)).
Proof.
  unfold forward_events.
  split; intros ->; destruct (ff_adapter self), (self_attn_adapter self);
    simpl; intuition discriminate.
Qed.

(** X2. Whatever the arguments and whether it returns or fails, the
    calls a forward pass makes are an initial part of [forward_events],
    in that order, and all of them when it returns; so it makes at most
    thirteen calls, and never calls an adapter the layer does not have. *)
Theorem forward_calls_prefix self x mask kpm am s :
  exists made rest,
    forward_events self = made ++ rest /\
    trace (fst (forward self x mask kpm am s)) = trace s ++ made /\
    (is_Ok (snd (forward self x mask kpm am s)) = true -> rest = []) /\
    (List.length made <= 13)%nat /\
    (self_attn_adapter self = None -> ~ In (Ev_adapter SelfAttn) made) /\
    (ff_adapter self = None -> ~ In (Ev_adapter Ffn) made).
Proof.
  rewrite forward_steps_refines.
  destruct (forward_logs self x mask kpm am s) as (made & rest & E & Htr & Hok).
  exists made, rest. split; [exact E|]. split; [exact Htr|]. split; [exact Hok|].
  destruct (forward_events_no_absent_adapter self) as [N1 N2].
  split; [|split].
  - apply (f_equal (@List.length Event)) in E. rewrite List.length_app in E.
    assert (List.length (forward_events self) <= 13)%nat; [|lia].
    unfold forward_events.
    destruct (self_attn_adapter self), (ff_adapter self); simpl; lia.
  - intros Hn Hin. apply (N1 Hn). rewrite E. apply in_or_app. left. exact Hin.
  - intros Hn Hin. apply (N2 Hn). rewrite E. apply in_or_app. left. exact Hin.
Qed.

End Calls.

(** ** Construction *)

Section MoreConstruction.
Context {T : Torch}.

(** X3. An activation name that [get_activation_fn] rejects makes both
    constructors fail.  The layer's constructor fails with that very
    exception before any sub-module is built, the generator untouched;
    the adapter's constructor never returns an adapter. *)
Theorem unknown_activation_fails_construction name e :
  get_activation_fn name = Err e ->
  (forall d f h p pa pact bkv za ex sa ff g,
     __init__ d f h p pa pact name bkv za ex sa ff g = (g, Err e)) /\
  (forall d n g, exists g' e', Adapter.__init__ d n name g = (g', Err e')).
Proof.
  intros H. split.
  - intros. unfold __init__, bind. rewrite H. reflexivity.
  - intros d n g. unfold Adapter.__init__, bind.
    destruct (Linear_init d n g) as [g1 [l1|e1]]; [|eauto].
    destruct (Linear_init n d g1) as [g2 [l2|e2]]; [|eauto].
    rewrite H. unfold raise. eauto.
Qed.

Lemma init_Ok_inv d f h p pa pact name bkv za ex sa ff g g' self :
  __init__ d f h p pa pact name bkv za ex sa ff g = (g', Ok self) ->
  exists act m n1 l1 l2 n2 g1 g2 g3 g4 g5 g6,
    get_activation_fn name = Ok act /\
    MultiheadAttention_init d h pa bkv za true g = (g1, Ok m) /\
    LayerNorm_init d ex g1 = (g2, Ok n1) /\
    Linear_init d f g2 = (g3, Ok l1) /\
    Linear_init f d g3 = (g4, Ok l2) /\
    LayerNorm_init d ex g4 = (g5, Ok n2) /\
    make_adapter d sa name g5 = (g6, Ok (self_attn_adapter self)) /\
    make_adapter d ff name g6 = (g', Ok (ff_adapter self)) /\
    without_adapters self =
      {| training := true; embedding_dim := d; dropout := p;
         activation_dropout := pact; activation_fn := act; self_attn := m;
         self_attn_layer_norm := n1; fc1 := l1; fc2 := l2; final_layer_norm := n2;
         self_attn_adapter := None; ff_adapter := None |}.
Proof.
  unfold __init__. intros H.
  apply bind_Ok_inv in H. destruct H as (act & g0 & H0 & H).
  injection H0 as <- Hact.
  apply bind_Ok_inv in H. destruct H as (m & g1 & H1 & H).
  apply bind_Ok_inv in H. destruct H as (n1 & g2 & H2 & H).
  apply bind_Ok_inv in H. destruct H as (l1 & g3 & H3 & H).
  apply bind_Ok_inv in H. destruct H as (l2 & g4 & H4 & H).
  apply bind_Ok_inv in H. destruct H as (n2 & g5 & H5 & H).
  apply bind_Ok_inv in H. destruct H as (a1 & g6 & H6 & H).
  apply bind_Ok_inv in H. destruct H as (a2 & g7 & H7 & H).
  unfold ret in H. injection H as <- <-.
  exists act, m, n1, l1, l2, n2, g1, g2, g3, g4, g5, g6.
  repeat split; assumption.
Qed.

(** X4. A non-zero adapter dimension [n] makes the constructor build
    the corresponding adapter with a down-projection from the embedding
    dimension to [n], an up-projection from [n] back to the embedding
    dimension, and the activation function of the layer itself. *)
Theorem constructed_adapter_dimensions (HS : ShapeSpec)
    d f h p pa pact name bkv za ex sa ff g g' self :
  __init__ d f h p pa pact name bkv za ex sa ff g = (g', Ok self) ->
  (forall n, sa = Some n -> n <> 0 ->
     exists a, self_attn_adapter self = Some a /\
       in_features (Adapter.fc1 a) = d /\ out_features (Adapter.fc1 a) = n /\
       in_features (Adapter.fc2 a) = n /\ out_features (Adapter.fc2 a) = d /\
       Adapter.activation_fn a = activation_fn self) /\
  (forall n, ff = Some n -> n <> 0 ->
     exists a, ff_adapter self = Some a /\
       in_features (Adapter.fc1 a) = d /\ out_features (Adapter.fc1 a) = n /\
       in_features (Adapter.fc2 a) = n /\ out_features (Adapter.fc2 a) = d /\
       Adapter.activation_fn a = activation_fn self).
Proof.
  intros H. apply init_Ok_inv in H.
  destruct H as (act & m & n1 & l1 & l2 & n2 & g1 & g2 & g3 & g4 & g5 & g6
                 & Hact & _ & _ & _ & _ & _ & Hsa & Hff & Hrec).
  assert (Hfn : activation_fn self = act).
  { change (activation_fn self) with (activation_fn (without_adapters self)).
    rewrite Hrec. reflexivity. }
  assert (Hbuilt : forall dim n ga gb o,
            dim = Some n -> n <> 0 ->
            make_adapter d dim name ga = (gb, Ok o) ->
            exists a, o = Some a /\
              in_features (Adapter.fc1 a) = d /\ out_features (Adapter.fc1 a) = n /\
              in_features (Adapter.fc2 a) = n /\ out_features (Adapter.fc2 a) = d /\
              Adapter.activation_fn a = activation_fn self).
  { intros dim n ga gb o -> Hn Hm. unfold make_adapter, truthy in Hm.
    destruct (Z.eqb_spec n 0) as [|_]; [contradiction|]. simpl in Hm.
    apply bind_Ok_inv in Hm. destruct Hm as (a & gc & Ha & Hr).
    unfold ret in Hr. injection Hr as _ <-.
    apply Adapter_init_Ok_inv in Ha.
    destruct Ha as (gd & k1 & k2 & fn & K1 & K2 & Kf & ->).
    apply (Linear_init_features HS) in K1, K2.
    destruct K1 as [I1 O1], K2 as [I2 O2].
    exists {| Adapter.fc1 := k1; Adapter.fc2 := k2; Adapter.activation_fn := fn |}.
    simpl. repeat split; try assumption. congruence. }
  split; intros n Hdim Hn; eapply Hbuilt; eassumption.
Qed.

(** X5. The adapters are built last: if the constructor succeeds with
    some adapter dimensions, then from the same generator state and with
    both dimensions absent it succeeds too, and builds the same layer
    without its adapters. *)
Theorem construction_without_adapters d f h p pa pact name bkv za ex sa ff g g' self :
  __init__ d f h p pa pact name bkv za ex sa ff g = (g', Ok self) ->
  exists g'',
    __init__ d f h p pa pact name bkv za ex None None g =
      (g'', Ok (without_adapters self)).
Proof.
  intros H. apply init_Ok_inv in H.
  destruct H as (act & m & n1 & l1 & l2 & n2 & g1 & g2 & g3 & g4 & g5 & g6
                 & Hact & H1 & H2 & H3 & H4 & H5 & _ & _ & Hrec).
  exists g5. unfold __init__.
  erewrite bind_Ok by (rewrite Hact; reflexivity).
  erewrite bind_Ok by exact H1.
  erewrite bind_Ok by exact H2.
  erewrite bind_Ok by exact H3.
  erewrite bind_Ok by exact H4.
  erewrite bind_Ok by exact H5.
  rewrite Hrec. reflexivity.
Qed.

(** X9. A layer the constructor has built with admissible dropout
    probabilities runs: on every input of size [(L, B, d)], [d] the
    embedding dimension it was built with, and masks the attention
    module accepts, [forward] returns a tensor of size [(L, B, d)]. *)
Theorem constructed_layer_forward_size (HS : ShapeSpec)
    d f h p pa pact name bkv za ex sa ff g g' self x kpm am L B s :
  __init__ d f h p pa pact name bkv za ex sa ff g = (g', Ok self) ->
  prob_ok p = true -> prob_ok pact = true ->
  0 < L -> 0 < B -> size x = [L; B; d] -> masks_ok L B kpm am = true ->
  exists s' y w,
    forward self x None kpm am s = (s', Ok (y, w)) /\ size y = [L; B; d].
Proof.
  intros Hinit Hp Hpa HL HB Hx Hm.
  destruct (init_wf HS _ _ _ _ _ _ _ _ _ _ _ _ _ _ _ Hinit)
    as (W & Hd & _ & Hdp & Hdpa).
  destruct (forward_defined HS self x kpm am L B s W) as (s' & y & w & H & Sy);
    try congruence.
  exists s', y, w. split; [exact H | congruence].
Qed.

End MoreConstruction.

(** ** Sizes through an adapter *)

Section AdapterSize.
Context {T : Torch}.

(** X6. An adapter with projections of matching dimensions returns,
    on every input whose trailing dimension is the embedding dimension,
    a tensor of the size of its input. *)
Theorem Adapter_forward_preserves_size (HS : ShapeSpec) d (a : Adapter.t) x :
  Adapter.wf d a -> trailing (size x) = Some d ->
  exists y, Adapter.forward a x = Ok y /\ size y = size x.
Proof.
  intros W Hx.
  destruct (Adapter_forward_defined HS d a x W Hx)
    as (h & u & y & _ & _ & _ & _ & Sy & Hy).
  exists y. split; assumption.
Qed.

End AdapterSize.

(** ** Inference mode and adapters that change nothing *)

Section InferenceFormula.
Context {T : Torch}.

(** X7. In inference mode dropout drops out of the computation: a
    forward call that returns has computed
    [norm2 (x1 + adapter2 (fc2 (act (fc1 x1))))] with
    [x1 = norm1 (x + adapter1 (attention x))], and the generator is left
    where the attention module left it. *)
Theorem forward_inference_formula (HD : DropoutSpec) self x mask kpm am s s' y w :
  training self = false ->
  prob_ok (dropout self) = true -> prob_ok (activation_dropout self) = true ->
  forward self x mask kpm am s = (s', Ok (y, w)) ->
  exists attended a1 r1 x1 h1 h2 f r2,
    MultiheadAttention_forward (self_attn self) x x x kpm false am (generator s)
      = (generator s', Ok (attended, w)) /\
    apply_adapter (self_attn_adapter self) attended = Ok a1 /\
    tensor_add x a1 = Ok r1 /\
    LayerNorm_forward (self_attn_layer_norm self) r1 = Ok x1 /\
    Linear_forward (fc1 self) x1 = Ok h1 /\
    Linear_forward (fc2 self) (activation_fn self h1) = Ok h2 /\
    apply_adapter (ff_adapter self) h2 = Ok f /\
    tensor_add x1 f = Ok r2 /\
    LayerNorm_forward (final_layer_norm self) r2 = Ok y.
Proof.
  intros Hmode Hp Hpa H. apply forward_Ok_inv in H.
  destruct H as (_ & g1 & a & a1 & g2 & d1 & r1 & x1 & h1 & g3 & d2 & h2 & d3 & f & r2
                 & H1 & H2 & H3 & H4 & H5 & H6 & H7 & H8 & H9 & H10 & H11 & H12 & _).
  rewrite Hmode in H3, H7, H9.
  rewrite (F_dropout_inference HD _ _ _ Hp) in H3.
  rewrite (F_dropout_inference HD _ _ _ Hpa) in H7.
  rewrite (F_dropout_inference HD _ _ _ Hp) in H9.
  injection H3 as <- <-. injection H7 as <- <-. injection H9 as G <-.
  rewrite G in H1.
  exists a, a1, r1, x1, h1, h2, f, r2. repeat split; assumption.
Qed.

Lemma apply_adapter_zero (HS : ShapeSpec) (HZ : ZeroSpec) d (o : option Adapter.t) x :
  (forall a, o = Some a -> Adapter.wf d a) ->
  (forall a, o = Some a ->
     forall h u, Linear_forward (Adapter.fc2 a) h = Ok u -> is_zero u = true) ->
  trailing (size x) = Some d ->
  apply_adapter o x = Ok x.
Proof.
  intros Hwf Hz Hx. destruct o as [a|]; [|reflexivity]. simpl.
  destruct (Adapter_forward_defined HS d a x (Hwf a eq_refl) Hx)
    as (h & u & y & _ & Hu & Su & Hy & _ & Hf).
  rewrite Hf, <- Hy. apply (tensor_add_zero_l HZ); [|exact Su].
  exact (Hz a eq_refl _ _ Hu).
Qed.

(** A forward pass assembled from the values of its steps. *)
Lemma forward_Ok_intro self x kpm am s g1 a w a1 g2 d1 r1 x1 h1 g3 d2 h2 g4 d3 f r2 y :
  MultiheadAttention_forward (self_attn self) x x x kpm false am (generator s)
    = (g1, Ok (a, w)) ->
  apply_adapter (self_attn_adapter self) a = Ok a1 ->
  F_dropout a1 (dropout self) (training self) g1 = (g2, Ok d1) ->
  tensor_add x d1 = Ok r1 ->
  LayerNorm_forward (self_attn_layer_norm self) r1 = Ok x1 ->
  Linear_forward (fc1 self) x1 = Ok h1 ->
  F_dropout (activation_fn self h1) (activation_dropout self) (training self) g2
    = (g3, Ok d2) ->
  Linear_forward (fc2 self) d2 = Ok h2 ->
  F_dropout h2 (dropout self) (training self) g3 = (g4, Ok d3) ->
  apply_adapter (ff_adapter self) d3 = Ok f ->
  tensor_add x1 f = Ok r2 ->
  LayerNorm_forward (final_layer_norm self) r2 = Ok y ->
  exists s', forward self x None kpm am s = (s', Ok (y, w)) /\ generator s' = g4.
Proof.
  intros H1 H2 H3 H4 H5 H6 H8 H9 H10 H11 H12 H13.
  eexists. split.
  - rewrite forward_steps_refines. unfold forward_steps.
    erewrite bind_Ok by reflexivity.
    erewrite bind_Ok by (apply call_Ok; exact H1).
    erewrite bind_Ok by (apply adapter_step_Ok; exact H2).
    erewrite bind_Ok by (apply call_Ok; exact H3).
    erewrite bind_Ok by (apply call_pure_Ok; exact H4).
    erewrite bind_Ok by (apply call_pure_Ok; exact H5).
    erewrite bind_Ok by (apply call_pure_Ok; exact H6).
    erewrite bind_Ok by (apply call_pure_Ok; reflexivity).
    erewrite bind_Ok by (apply call_Ok; exact H8).
    erewrite bind_Ok by (apply call_pure_Ok; exact H9).
    erewrite bind_Ok by (apply call_Ok; exact H10).
    erewrite bind_Ok by (apply adapter_step_Ok; exact H11).
    erewrite bind_Ok by (apply call_pure_Ok; exact H12).
    erewrite bind_Ok by (apply call_pure_Ok; exact H13).
    reflexivity.
  - reflexivity.
Qed.

(** X8. Adapters whose up-projection returns only zeros change
    nothing: on a well-sized input, a well-formed layer with such
    adapters returns the same pair, and leaves the generator in the same
    state, as the layer with the same parameters and no adapters. *)
Theorem zero_adapters_equal_no_adapters (HS : ShapeSpec) (HZ : ZeroSpec)
    self x kpm am L B s :
  wf self ->
  prob_ok (dropout self) = true -> prob_ok (activation_dropout self) = true ->
  0 < L -> 0 < B -> size x = [L; B; embedding_dim self] ->
  masks_ok L B kpm am = true ->
  (forall a, self_attn_adapter self = Some a \/ ff_adapter self = Some a ->
     forall h u, Linear_forward (Adapter.fc2 a) h = Ok u -> is_zero u = true) ->
  exists s1 s2 y w,
    forward self x None kpm am s = (s1, Ok (y, w)) /\
    forward (without_adapters self) x None kpm am s = (s2, Ok (y, w)) /\
    generator s1 = generator s2.
Proof.
  intros W Hp Hpa HL HB Hx Hm Hzero.
  assert (Htr : forall z, size z = size x -> trailing (size z) = Some (embedding_dim self)).
  { intros z ->. rewrite Hx. reflexivity. }
  destruct (forward_defined HS self x kpm am L B s W Hp Hpa HL HB Hx Hm)
    as (s1 & y & w & H & _).
  pose proof H as Hinv. apply forward_Ok_inv in Hinv.
  destruct Hinv as (_ & g1 & a & a1 & g2 & d1 & r1 & x1 & h1 & g3 & d2 & h2 & d3 & f & r2
                 & H1 & H2 & H3 & H4 & H5 & H6 & H7 & H8 & H9 & H10 & H11 & H12 & _).
  (* sizes along the way *)
  assert (Sa : size a = size x).
  { destruct (MultiheadAttention_forward_size HS (self_attn self) x kpm false am
                (generator s) L B HL HB) as (g' & a' & w' & E & S');
      [rewrite (wf_self_attn _ W); exact Hx | exact Hm |].
    rewrite H1 in E. injection E as _ <- _. exact S'. }
  assert (Ea : a1 = a).
  { pose proof (apply_adapter_zero HS HZ (embedding_dim self) (self_attn_adapter self) a
                  (wf_self_attn_adapter _ W) (fun ad E => Hzero ad (or_introl E))
                  (Htr _ Sa)) as E.
    rewrite H2 in E. injection E as E. exact E. }
  subst a1.
  assert (Sd1 : size d1 = size x).
  { destruct (F_dropout_size HS a (dropout self) (training self) g1 Hp)
      as (g' & d' & E & S'). rewrite H3 in E. injection E as _ <-. congruence. }
  assert (Sr1 : size r1 = size x).
  { destruct (tensor_add_size HS x d1 (eq_sym Sd1)) as (r' & E & S').
    rewrite H4 in E. injection E as <-. exact S'. }
  assert (Sx1 : size x1 = size x).
  { destruct (LayerNorm_forward_size HS (self_attn_layer_norm self) r1) as (n' & E & S').
    { rewrite (wf_self_attn_layer_norm _ W). apply Htr, Sr1. }
    rewrite H5 in E. injection E as <-. congruence. }
  assert (Sh1 : size h1 = removelast (size x1) ++ [out_features (fc1 self)]).
  { destruct (Linear_forward_size HS (fc1 self) x1) as (h' & E & S').
    { rewrite (wf_fc1_in _ W). apply Htr, Sx1. }
    rewrite H6 in E. injection E as <-. exact S'. }
  assert (Sd2 : size d2 = size h1).
  { destruct (F_dropout_size HS (activation_fn self h1) (activation_dropout self)
                (training self) g2 Hpa) as (g' & d' & E & S').
    rewrite H7 in E. injection E as _ <-. rewrite S'. apply (wf_activation_fn _ W). }
  assert (Sh2 : size h2 = size x).
  { destruct (Linear_forward_size HS (fc2 self) d2) as (h' & E & S').
    { rewrite Sd2, Sh1, trailing_app_last, (wf_fc1_fc2 _ W). reflexivity. }
    rewrite H8 in E. injection E as <-.
    rewrite S', Sd2, Sh1, removelast_last, (wf_fc2_out _ W), Sx1.
    apply trailing_removelast, Htr. reflexivity. }
  assert (Sd3 : size d3 = size x).
  { destruct (F_dropout_size HS h2 (dropout self) (training self) g3 Hp)
      as (g' & d' & E & S'). rewrite H9 in E. injection E as _ <-. congruence. }
  assert (Ef : f = d3).
  { pose proof (apply_adapter_zero HS HZ (embedding_dim self) (ff_adapter self) d3
                  (wf_ff_adapter _ W) (fun ad E => Hzero ad (or_intror E))
                  (Htr _ Sd3)) as E.
    rewrite H10 in E. injection E as E. exact E. }
  subst f.
  destruct (forward_Ok_intro (without_adapters self) x kpm am s
              g1 a w a g2 d1 r1 x1 h1 g3 d2 h2 (generator s1) d3 d3 r2 y
              H1 eq_refl H3 H4 H5 H6 H7 H8 H9 eq_refl H11 H12) as (s2 & H' & G').
  exists s1, s2, y, w. repeat split; [exact H | exact H' | congruence].
Qed.

End InferenceFormula.

(** ** The further properties at work on the executable instance *)

Lemma Toy_DropoutSpec : @DropoutSpec Toy.torch.
Proof.
  constructor; simpl. intros x p g Hp. unfold Toy.dropout. rewrite Hp. reflexivity.
Qed.

Lemma Toy_zero_adapters_wf (mode : bool) : wf (Toy.zero_adapters mode).
Proof.
  constructor; simpl; try reflexivity;
    intros a [= <-]; repeat split.
Qed.

Lemma Toy_zero_adapters_up (mode : bool) (a : @Adapter.t Toy.torch) :
  self_attn_adapter (Toy.zero_adapters mode) = Some a \/
  ff_adapter (Toy.zero_adapters mode) = Some a ->
  forall h u, Toy.linear_forward (Adapter.fc2 a) h = Ok u -> (Toy.t_val u =? 0) = true.
Proof.
  simpl. intros [[= <-] | [= <-]]; apply Toy_zero_adapter_up.
Qed.


Lemma unknown_activation_fails_construction_witness :
  @get_activation_fn Toy.torch "gelu" =
    Err ("--activation-fn not supported"%string : @Exn Toy.torch) /\
  __init__ (T := Toy.torch) 4 8 2 (50 : Z) (0 : Z) (0 : Z) "gelu" false false false
    (Some 2) None (5 : Z) = (5, Err "--activation-fn not supported"%string).
Proof.
  split; [reflexivity|].
  apply (@unknown_activation_fails_construction Toy.torch "gelu"
           "--activation-fn not supported"%string eq_refl).
Defined.

Lemma constructed_adapter_dimensions_witness :
  exists a : @Adapter.t Toy.torch,
    ff_adapter (Toy.both_adapters true) = Some a /\
    Toy.l_in (Adapter.fc1 a) = 4 /\ Toy.l_out (Adapter.fc1 a) = 2 /\
    Toy.l_in (Adapter.fc2 a) = 2 /\ Toy.l_out (Adapter.fc2 a) = 4 /\
    Adapter.activation_fn a = Toy.relu.
Proof.
  apply (proj2 (constructed_adapter_dimensions Toy_ShapeSpec 4 8 2 (50 : Z) (0 : Z)
                  (0 : Z) "relu" false false false (Some 2) (Some 2) (0 : Z) (7 : Z)
                  (Toy.both_adapters true) eq_refl) 2 eq_refl).
  discriminate.
Defined.

Lemma construction_without_adapters_witness :
  exists g'' : Z,
    __init__ (T := Toy.torch) 4 8 2 (50 : Z) (0 : Z) (0 : Z) "relu" false false false
      None None (0 : Z) = (g'', Ok (without_adapters (Toy.both_adapters true))).
Proof.
  apply (@construction_without_adapters Toy.torch 4 8 2 (50 : Z) (0 : Z) (0 : Z)
           "relu" false false false (Some 2) (Some 2) (0 : Z) (7 : Z)
           (Toy.both_adapters true) eq_refl).
Defined.

Lemma constructed_layer_forward_size_witness :
  exists s' y w,
    forward (Toy.both_adapters true) Toy.x0 None None None Toy.s0 = (s', Ok (y, w)) /\
    Toy.t_size y = [2; 1; 4].
Proof.
  apply (constructed_layer_forward_size Toy_ShapeSpec 4 8 2 (50 : Z) (0 : Z) (0 : Z)
           "relu" false false false (Some 2) (Some 2) (0 : Z) (7 : Z)
           (Toy.both_adapters true) Toy.x0 None None 2 1 Toy.s0 eq_refl);
    reflexivity.
Defined.

Lemma Adapter_forward_preserves_size_witness :
  Adapter.wf 4 Toy.zero_adapter /\
  exists y, Adapter.forward Toy.zero_adapter Toy.x0 = Ok y /\
            Toy.t_size y = Toy.t_size Toy.x0.
Proof.
  split; [exact Toy_zero_adapter_wf|].
  exact (Adapter_forward_preserves_size Toy_ShapeSpec 4 Toy.zero_adapter Toy.x0
           Toy_zero_adapter_wf eq_refl).
Defined.

Lemma forward_inference_formula_witness :
  forward (Toy.both_adapters false) Toy.x0 None None None Toy.s0 =
    ({| generator := 0 : @Generator Toy.torch;
        trace := forward_events (Toy.both_adapters false) |},
     Ok ({| Toy.t_size := [2; 1; 4]; Toy.t_val := -53 |}, None)) /\
  exists x1 h1 h2 f r2 : Toy.tensor,
    Toy.linear_forward (fc1 (Toy.both_adapters false)) x1 = Ok h1 /\
    Toy.linear_forward (fc2 (Toy.both_adapters false)) (Toy.relu h1) = Ok h2 /\
    apply_adapter (ff_adapter (Toy.both_adapters false)) h2 = Ok f /\
    Toy.add x1 f = Ok r2 /\
    Toy.layer_norm_forward (final_layer_norm (Toy.both_adapters false)) r2 =
      Ok {| Toy.t_size := [2; 1; 4]; Toy.t_val := -53 |}.
Proof.
  split; [reflexivity|].
  destruct (forward_inference_formula Toy_DropoutSpec (Toy.both_adapters false) Toy.x0
              None None None Toy.s0 _ _ _ eq_refl eq_refl eq_refl eq_refl)
    as (a & a1 & r1 & x1 & h1 & h2 & f & r2 & _ & _ & _ & _ & H5 & H6 & H7 & H8 & H9).
  exists x1, h1, h2, f, r2. repeat split; assumption.
Defined.

Lemma zero_adapters_equal_no_adapters_witness :
  wf (Toy.zero_adapters true) /\
  exists s1 s2 y w,
    forward (Toy.zero_adapters true) Toy.x0 None None None Toy.s0 = (s1, Ok (y, w)) /\
    forward (without_adapters (Toy.zero_adapters true)) Toy.x0 None None None Toy.s0
      = (s2, Ok (y, w)) /\
    generator s1 = generator s2.
Proof.
  split; [apply Toy_zero_adapters_wf|].
  apply (zero_adapters_equal_no_adapters Toy_ShapeSpec Toy_ZeroSpec
           (Toy.zero_adapters true) Toy.x0 None None 2 1 Toy.s0
           (Toy_zero_adapters_wf true));
    try reflexivity.
  apply Toy_zero_adapters_up.
Defined.
